(** * A shallow embedding of [app.py]: a read-only query service over a
      literature database.

    The Flask handlers of [create_app] and the connection manager
    [get_engine] are embedded as computations in a small state-and-exception
    monad over a [World]: the process environment, the memoised module
    global [_engine], the relational store and the trace of operations the
    process sent to the store.

    - Strings are Python [str] values over ASCII; integers are unbounded
      ([Z]); [int()] follows the language's grammar for base 10, without
      the interpreter's configurable cap on the number of digits.
    - A JSON body is the Python dict handed to [jsonify], keys in insertion
      order.
    - The store is the three tables of schema [ns] together with its
      health: which operations it fails, and with which message.  The SQL
      of each [text(...)] is given its relational meaning over the tables.
    - The route [/img] serves a file from disk and is not modelled. *)

From Stdlib Require Import List String Ascii ZArith Lia Bool.
From Stdlib Require Import DecimalString DecimalPos.
Import ListNotations.
Open Scope string_scope.
Open Scope Z_scope.

Set Implicit Arguments.
Set Warnings "-register-all".

(** ** Python strings *)

Module PyStr.

(** [s.startswith(p)] *)
Fixpoint startswith (p s : string) : bool :=
  match p with
  | EmptyString => true
  | String c p' =>
      match s with
      | EmptyString => false
      | String d s' => Ascii.eqb c d && startswith p' s'
      end
  end.

(** [s[n:]] *)
Fixpoint slice_from (n : nat) (s : string) : string :=
  match n with
  | O => s
  | S n' =>
      match s with
      | EmptyString => EmptyString
      | String _ s' => slice_from n' s'
      end
  end.

(** [s.split(sep)] for a one-character separator: never the empty list,
    and one more part than there are separators in [s]. *)
Fixpoint split (sep : ascii) (s : string) : list string :=
  match s with
  | EmptyString => [EmptyString]
  | String c s' =>
      if Ascii.eqb c sep then EmptyString :: split sep s'
      else
        match split sep s' with
        | part :: parts => String c part :: parts
        | [] => [String c EmptyString]
        end
  end.

(** [sub in s] *)
Fixpoint contains (sub s : string) : bool :=
  startswith sub s ||
  match s with
  | EmptyString => false
  | String _ s' => contains sub s'
  end.

(** [str(n)] for an integer. *)
Definition str_of_int (n : Z) : string :=
  NilZero.string_of_int (Z.to_int n).

(** The characters [int()] skips around a literal (C's [isspace]). *)
Definition is_space (c : ascii) : bool :=
  match nat_of_ascii c with
  | 32%nat | 9%nat | 10%nat | 11%nat | 12%nat | 13%nat => true
  | _ => false
  end.

Definition digit_of (c : ascii) : option Z :=
  let n := Z.of_nat (nat_of_ascii c) in
  if (48 <=? n) && (n <=? 57) then Some (n - 48) else None.

Definition is_digit (c : ascii) : bool :=
  match digit_of c with Some _ => true | None => false end.

Definition underscore : ascii := "_"%char.

Fixpoint lstrip (s : string) : string :=
  match s with
  | String c s' => if is_space c then lstrip s' else s
  | EmptyString => EmptyString
  end.

Fixpoint all_space (s : string) : bool :=
  match s with
  | EmptyString => true
  | String c s' => is_space c && all_space s'
  end.

(** The digit scan of [int(s, 10)]: digits, with single underscores
    allowed between two digits.  [prev_us] tells that the character just
    read was an underscore; the scan stops at the first character that is
    neither a digit nor an underscore, and what follows must be blank. *)
Fixpoint scan_digits (acc : Z) (prev_us : bool) (s : string) : option Z :=
  match s with
  | EmptyString => if prev_us then None else Some acc
  | String c s' =>
      match digit_of c with
      | Some d => scan_digits (10 * acc + d) false s'
      | None =>
          if Ascii.eqb c underscore then
            if prev_us then None else scan_digits acc true s'
          else if prev_us then None
          else if all_space s then Some acc else None
      end
  end.

(** [int(s)]: [None] stands for the [ValueError] it raises.  Blanks are
    skipped, one sign is read, and the literal must start with a digit. *)
Definition int (s : string) : option Z :=
  let literal sign s1 :=
    match s1 with
    | String c _ =>
        if is_digit c then option_map (Z.mul sign) (scan_digits 0 false s1)
        else None
    | EmptyString => None
    end in
  match lstrip s with
  | EmptyString => None
  | String c s1 =>
      if Ascii.eqb c "+" then literal 1 s1
      else if Ascii.eqb c "-" then literal (-1) s1
      else literal 1 (String c s1)
  end.

End PyStr.

(** ** JSON values and Python dicts *)

Inductive Json : Type :=
| JNull
| JBool (b : bool)
| JInt (n : Z)
| JStr (s : string)
| JList (items : list Json)
| JDict (fields : list (string * Json)).

(** A dict keeps its keys in insertion order; assigning to a key that is
    present replaces the value in place. *)
Definition Dict := list (string * Json).

Fixpoint dict_set (k : string) (v : Json) (d : Dict) : Dict :=
  match d with
  | [] => [(k, v)]
  | (k', v') :: d' =>
      if String.eqb k k' then (k, v) :: d' else (k', v') :: dict_set k v d'
  end.

Fixpoint dict_get (k : string) (d : Dict) : option Json :=
  match d with
  | [] => None
  | (k', v) :: d' => if String.eqb k k' then Some v else dict_get k d'
  end.

Definition dict_keys (d : Dict) : list string := map fst d.

(** ** Exceptions and results *)

Inductive ExnType := RuntimeError | ValueError | TypeError | IndexError | DBAPIError.

(** An exception object: its class (every one a subclass of [Exception])
    and [str(e)]. *)
Record Exn := mkExn { exn_type : ExnType; exn_str : string }.

Inductive result (A : Type) : Type :=
| Ok (a : A)
| Raise (e : Exn).
Arguments Ok {A} a.
Arguments Raise {A} e.

(** ** The relational store *)

(** Modelled from the spec: the table declarations of schema [ns] are not
    part of the repository.  A term annotation is
    (study_id: integer, contrast_id, term: string, weight: number); the two
    columns the service never inspects are kept as opaque values. *)
Record AnnotationTerm := mkAnnotation {
  at_study_id : Z;
  at_contrast_id : Json;
  at_term : string;
  at_weight : Json
}.

(** Modelled from the spec: a coordinate is (study_id: integer, geometry: 3D
    point x/y/z integers); [ST_X], [ST_Y] and [ST_Z] project the point. *)
Record Coordinate := mkCoordinate {
  c_study_id : Z;
  ST_X : Z;
  ST_Y : Z;
  ST_Z : Z
}.

(** A result row: the selected columns, by name, in select order. *)
Definition Row := list (string * Json).

(** The statements the service sends, one constructor per [text(...)] of
    the source, with its bound parameters. *)
Inductive Statement :=
| SelectTermStudies (term : string)
| SelectLocationStudies (x y z : Z)
| SelectDissociateTerms (term_a term_b : string)
| SelectDissociateLocations (x1 y1 z1 x2 y2 z2 : Z)
| SetSearchPath
| SelectVersion
| CountCoordinates
| CountMetadata
| CountAnnotationsTerms
| SampleCoordinates
| SampleMetadata
| SampleAnnotationsTerms.

(** The SQL text of each statement, with the layout whitespace of the
    triple-quoted literals reduced to single blanks. *)
Definition sql_text (s : Statement) : string :=
  match s with
  | SelectTermStudies _ =>
      "SELECT DISTINCT study_id FROM ns.annotations_terms WHERE term = :term"
  | SelectLocationStudies _ _ _ =>
      "SELECT DISTINCT study_id FROM ns.coordinates WHERE ST_X(geom) = :x AND ST_Y(geom) = :y AND ST_Z(geom) = :z"
  | SelectDissociateTerms _ _ =>
      "SELECT DISTINCT study_id FROM ns.annotations_terms WHERE term = :term_a AND study_id NOT IN ( SELECT study_id FROM ns.annotations_terms WHERE term = :term_b )"
  | SelectDissociateLocations _ _ _ _ _ _ =>
      "SELECT DISTINCT study_id FROM ns.coordinates WHERE ST_X(geom) = :x1 AND ST_Y(geom) = :y1 AND ST_Z(geom) = :z1 AND study_id NOT IN ( SELECT study_id FROM ns.coordinates WHERE ST_X(geom) = :x2 AND ST_Y(geom) = :y2 AND ST_Z(geom) = :z2 )"
  | SetSearchPath => "SET search_path TO ns, public;"
  | SelectVersion => "SELECT version()"
  | CountCoordinates => "SELECT COUNT(*) FROM ns.coordinates"
  | CountMetadata => "SELECT COUNT(*) FROM ns.metadata"
  | CountAnnotationsTerms => "SELECT COUNT(*) FROM ns.annotations_terms"
  | SampleCoordinates =>
      "SELECT study_id, ST_X(geom) AS x, ST_Y(geom) AS y, ST_Z(geom) AS z FROM ns.coordinates LIMIT 3"
  | SampleMetadata => "SELECT * FROM ns.metadata LIMIT 3"
  | SampleAnnotationsTerms =>
      "SELECT study_id, contrast_id, term, weight FROM ns.annotations_terms LIMIT 3"
  end.

(** A read query is a statement whose text is a [SELECT]. *)
Definition is_select (s : Statement) : bool :=
  PyStr.startswith "SELECT " (sql_text s).

(** What the process asks of the store: open a transaction, run a
    statement, end the transaction. *)
Inductive Op :=
| OpBegin
| OpExecute (s : Statement)
| OpCommit
| OpRollback.

(** The state of the store: the three tables, the server's version banner,
    the session's search path, and its health: [fault op] is the message of
    the error the store answers [op] with, if it does. *)
Record Store := mkStore {
  annotations_terms : list AnnotationTerm;
  coordinates : list Coordinate;
  metadata : list Row;
  server_version : string;
  search_path : list string;
  fault : Op -> option string
}.

Definition annotated_with (term : string) (a : AnnotationTerm) : bool :=
  String.eqb (at_term a) term.

Definition located_at (x y z : Z) (c : Coordinate) : bool :=
  (ST_X c =? x) && (ST_Y c =? y) && (ST_Z c =? z).

(** [v NOT IN (sub)] over a column without NULLs. *)
Definition not_in (sub : list Z) (v : Z) : bool :=
  negb (existsb (Z.eqb v) sub).

(** [SELECT DISTINCT]: the store picks the order of the rows; this model
    fixes one. *)
Definition distinct (ids : list Z) : list Z := nodup Z.eq_dec ids.

Definition study_id_rows (ids : list Z) : list Row :=
  map (fun id => [("study_id", JInt id)]) ids.

Definition count_row {A} (table : list A) : list Row :=
  [[("count", JInt (Z.of_nat (List.length table)))]].

Definition coordinate_row (c : Coordinate) : Row :=
  [("study_id", JInt (c_study_id c)); ("x", JInt (ST_X c));
   ("y", JInt (ST_Y c)); ("z", JInt (ST_Z c))].

Definition annotation_row (a : AnnotationTerm) : Row :=
  [("study_id", JInt (at_study_id a)); ("contrast_id", at_contrast_id a);
   ("term", JStr (at_term a)); ("weight", at_weight a)].

Definition set_search_path (p : list string) (st : Store) : Store :=
  mkStore (annotations_terms st) (coordinates st) (metadata st)
          (server_version st) p (fault st).

(** The rows a healthy store answers a statement with, and the store
    afterwards. *)
Definition eval_statement (s : Statement) (st : Store) : list Row * Store :=
  match s with
  | SelectTermStudies term =>
      (study_id_rows
         (distinct (map at_study_id
                        (filter (annotated_with term) (annotations_terms st)))),
       st)
  | SelectLocationStudies x y z =>
      (study_id_rows
         (distinct (map c_study_id
                        (filter (located_at x y z) (coordinates st)))),
       st)
  | SelectDissociateTerms term_a term_b =>
      let sub := map at_study_id
                     (filter (annotated_with term_b) (annotations_terms st)) in
      (study_id_rows
         (distinct (map at_study_id
                        (filter (fun a => annotated_with term_a a
                                          && not_in sub (at_study_id a))
                                (annotations_terms st)))),
       st)
  | SelectDissociateLocations x1 y1 z1 x2 y2 z2 =>
      let sub := map c_study_id
                     (filter (located_at x2 y2 z2) (coordinates st)) in
      (study_id_rows
         (distinct (map c_study_id
                        (filter (fun c => located_at x1 y1 z1 c
                                          && not_in sub (c_study_id c))
                                (coordinates st)))),
       st)
  | SetSearchPath => ([], set_search_path ["ns"; "public"] st)
  | SelectVersion => ([[("version", JStr (server_version st))]], st)
  | CountCoordinates => (count_row (coordinates st), st)
  | CountMetadata => (count_row (metadata st), st)
  | CountAnnotationsTerms => (count_row (annotations_terms st), st)
  | SampleCoordinates => (map coordinate_row (firstn 3 (coordinates st)), st)
  | SampleMetadata => (firstn 3 (metadata st), st)
  | SampleAnnotationsTerms =>
      (map annotation_row (firstn 3 (annotations_terms st)), st)
  end.

(** ** Computations: state and exceptions *)

Definition M (S A : Type) : Type := S -> result A * S.

Definition ret {S A} (a : A) : M S A := fun s => (Ok a, s).

Definition bind {S A B} (m : M S A) (k : A -> M S B) : M S B :=
  fun s =>
    match m s with
    | (Ok a, s') => k a s'
    | (Raise e, s') => (Raise e, s')
    end.

Definition raise {S A} (e : Exn) : M S A := fun s => (Raise e, s).

(** [try: m  except Exception as e: h e] *)
Definition try_except {S A} (m : M S A) (h : Exn -> M S A) : M S A :=
  fun s =>
    match m s with
    | (Ok a, s') => (Ok a, s')
    | (Raise e, s') => h e s'
    end.

Definition gets {S A} (f : S -> A) : M S A := fun s => (Ok (f s), s).
Definition modify {S} (f : S -> S) : M S unit := fun s => (Ok tt, f s).

Declare Scope py_scope.
Delimit Scope py_scope with py.
Notation "x <- m ;; k" := (bind m (fun x => k))
  (at level 61, m at next level, right associativity) : py_scope.
Notation "m ;; k" := (bind m (fun _ => k))
  (at level 61, right associativity) : py_scope.
Open Scope py_scope.

(** [[f(x) for x in xs]] with a fallible [f]. *)
Fixpoint for_each {S A B} (f : A -> M S B) (xs : list A) : M S (list B) :=
  match xs with
  | [] => ret []
  | x :: xs' => y <- f x ;; ys <- for_each f xs' ;; ret (y :: ys)
  end.

(** ** HTTP responses *)

Inductive Body :=
| Html (text : string)
| JsonBody (fields : Dict).

Record Response := mkResponse { status : Z; body : Body }.

(** [jsonify(d), code] *)
Definition jsonify (d : Dict) (code : Z) : Response := mkResponse code (JsonBody d).

Definition JInts (ids : list Z) : Json := JList (map JInt ids).

(** [x, y, z = map(int, coords.split("_"))], [None] when it raises. *)
Definition parse_coords (coords : string) : option (Z * Z * Z) :=
  match PyStr.split "_" coords with
  | [a; b; c] =>
      match PyStr.int a, PyStr.int b, PyStr.int c with
      | Some x, Some y, Some z => Some (x, y, z)
      | _, _, _ => None
      end
  | _ => None
  end.

(** [f"[{x}, {y}, {z}]"] *)
Definition fmt_point (x y z : Z) : string :=
  "[" ++ PyStr.str_of_int x ++ ", " ++ PyStr.str_of_int y ++ ", "
      ++ PyStr.str_of_int z ++ "]".

(** [int(row[0])] on a fetched row.  The [repr] in the message of an
    invalid literal is written for a string without quotes or escapes. *)
Definition int_row0 {S} (row : Row) : M S Z :=
  match row with
  | [] => raise (mkExn IndexError "tuple index out of range")
  | (_, JInt n) :: _ => ret n
  | (_, JBool b) :: _ => ret (if b then 1 else 0)
  | (_, JStr s) :: _ =>
      match PyStr.int s with
      | Some n => ret n
      | None =>
          raise (mkExn ValueError
                   ("invalid literal for int() with base 10: '" ++ s ++ "'"))
      end
  | (_, JNull) :: _ =>
      raise (mkExn TypeError
               "int() argument must be a string, a bytes-like object or a real number, not 'NoneType'")
  | (_, JList _) :: _ =>
      raise (mkExn TypeError
               "int() argument must be a string, a bytes-like object or a real number, not 'list'")
  | (_, JDict _) :: _ =>
      raise (mkExn TypeError
               "int() argument must be a string, a bytes-like object or a real number, not 'dict'")
  end.

(** [result.scalar()]: first column of the first row, [None] without rows. *)
Definition scalar (rows : list Row) : Json :=
  match rows with
  | ((_, v) :: _) :: _ => v
  | _ => JNull
  end.

(** [[dict(r) for r in result.mappings().all()]] *)
Definition dicts (rows : list Row) : Json := JList (map JDict rows).

Section App.

(** The engine object of the database toolkit, its constructor (which may
    raise on a URL it cannot use) and the name of its dialect. *)
Variable Engine : Type.
Variable create_engine : string -> bool -> result Engine.
Variable dialect_name : Engine -> string.

(** The process and what it talks to: the environment variable, the
    module global [_engine], the store, and the operations sent to the
    store so far. *)
Record World := mkWorld {
  DB_URL : option string;
  _engine : option Engine;
  store : Store;
  trace : list Op
}.

Definition set_engine (e : Engine) (w : World) : World :=
  mkWorld (DB_URL w) (Some e) (store w) (trace w).

Definition set_store (st : Store) (w : World) : World :=
  mkWorld (DB_URL w) (_engine w) st (trace w).

Definition log (op : Op) (w : World) : World :=
  mkWorld (DB_URL w) (_engine w) (store w) (trace w ++ [op]).

(** A handler's frame: the world, and for [test_db] its local [payload]. *)
Class Frame (S : Type) := {
  world_of : S -> World;
  with_world : World -> S -> S
}.

#[export] Instance World_Frame : Frame World :=
  {| world_of := fun w => w; with_world := fun w _ => w |}.

#[export] Instance Payload_Frame : Frame (World * Dict) :=
  {| world_of := fst; with_world := fun w s => (w, snd s) |}.

Definition in_world {S} `{Frame S} {A} (m : M World A) : M S A :=
  fun s => let (r, w') := m (world_of s) in (r, with_world w' s).

(** One operation on the store: it is recorded, then the store either
    fails it with a database error or answers. *)
Definition store_op (op : Op) : M World (list Row) :=
  fun w =>
    let w1 := log op w in
    match fault (store w) op with
    | Some msg => (Raise (mkExn DBAPIError msg), w1)
    | None =>
        match op with
        | OpExecute s =>
            let (rows, st') := eval_statement s (store w) in
            (Ok rows, set_store st' w1)
        | _ => (Ok [], w1)
        end
    end.

(** [conn.execute(text(...), params)] *)
Definition execute {S} `{Frame S} (s : Statement) : M S (list Row) :=
  in_world (store_op (OpExecute s)).

(** [with eng.begin() as conn: body]: commit when the body leaves
    normally (a [return] included), roll back and re-raise when it
    raises. *)
Definition with_begin {S} `{Frame S} {A} (body : M S A) : M S A :=
  in_world (store_op OpBegin) ;;
  fun s =>
    match body s with
    | (Ok a, s') =>
        match in_world (store_op OpCommit) s' with
        | (Ok _, s'') => (Ok a, s'')
        | (Raise e, s'') => (Raise e, s'')
        end
    | (Raise e, s') =>
        (Raise e, with_world (log OpRollback (world_of s')) s')
    end.

(** *** [get_engine] *)

Definition get_engine {S} `{Frame S} : M S Engine :=
  cached <- gets (fun s => _engine (world_of s)) ;;
  match cached with
  | Some e => ret e
  | None =>
      db_url <- gets (fun s => DB_URL (world_of s)) ;;
      match db_url with
      | None | Some EmptyString =>
          raise (mkExn RuntimeError
                   "Missing DB_URL (or DATABASE_URL) environment variable.")
      | Some db_url =>
          let db_url :=
            if PyStr.startswith "postgres://" db_url
            then "postgresql://"
                 ++ PyStr.slice_from (String.length "postgres://") db_url
            else db_url in
          match create_engine db_url true with
          | Raise e => raise e
          | Ok e =>
              modify (fun s => with_world (set_engine e (world_of s)) s) ;;
              ret e
          end
      end
  end.

(** *** The handlers of [create_app] *)

Definition health : M World Response :=
  ret (mkResponse 200 (Html "<p>Server working!</p>")).

Definition error_500 {S} (e : Exn) : M S Response :=
  ret (jsonify [("error", JStr (exn_str e))] 500).

Definition get_studies_by_term (term : string) : M World Response :=
  eng <- get_engine ;;
  try_except
    (with_begin
       (rows <- execute (SelectTermStudies term) ;;
        study_ids <- for_each int_row0 rows ;;
        match study_ids with
        | [] =>
            ret (jsonify [("error", JStr ("Term '" ++ term ++ "' not found."))]
                         404)
        | _ =>
            ret (jsonify [("term", JStr term); ("study_ids", JInts study_ids)]
                         200)
        end))
    error_500.

Definition get_studies_by_coordinates (coords : string) : M World Response :=
  match parse_coords coords with
  | None =>
      ret (jsonify [("error", JStr "Invalid coordinates format. Use x_y_z.")]
                   400)
  | Some (x, y, z) =>
      eng <- get_engine ;;
      try_except
        (with_begin
           (rows <- execute (SelectLocationStudies x y z) ;;
            study_ids <- for_each int_row0 rows ;;
            match study_ids with
            | [] =>
                ret (jsonify
                       [("error",
                         JStr ("Coordinates " ++ fmt_point x y z
                                              ++ " not found."))]
                       404)
            | _ =>
                ret (jsonify
                       [("coordinates", JInts [x; y; z]);
                        ("study_ids", JInts study_ids)]
                       200)
            end))
        error_500
  end.

Definition dissociate_terms (term_a term_b : string) : M World Response :=
  eng <- get_engine ;;
  try_except
    (with_begin
       (rows <- execute (SelectDissociateTerms term_a term_b) ;;
        study_ids <- for_each int_row0 rows ;;
        match study_ids with
        | [] =>
            ret (jsonify
                   [("error",
                     JStr ("No studies found for '" ++ term_a
                             ++ "' without '" ++ term_b ++ "'."))]
                   404)
        | _ =>
            ret (jsonify
                   [("term_a", JStr term_a); ("term_b", JStr term_b);
                    ("study_ids", JInts study_ids)]
                   200)
        end))
    error_500.

Definition dissociate_locations (coords_a coords_b : string)
  : M World Response :=
  match parse_coords coords_a, parse_coords coords_b with
  | Some (x1, y1, z1), Some (x2, y2, z2) =>
      eng <- get_engine ;;
      try_except
        (with_begin
           (rows <- execute (SelectDissociateLocations x1 y1 z1 x2 y2 z2) ;;
            study_ids <- for_each int_row0 rows ;;
            match study_ids with
            | [] =>
                ret (jsonify
                       [("error",
                         JStr ("No studies found for " ++ fmt_point x1 y1 z1
                                 ++ " without " ++ fmt_point x2 y2 z2
                                 ++ "."))]
                       404)
            | _ =>
                ret (jsonify
                       [("coords_a", JInts [x1; y1; z1]);
                        ("coords_b", JInts [x2; y2; z2]);
                        ("study_ids", JInts study_ids)]
                       200)
            end))
        error_500
  | _, _ =>
      ret (jsonify [("error", JStr "Invalid coordinates format. Use x_y_z.")]
                   400)
  end.

(** [payload[k] = v] and a read of the local [payload]. *)
Definition assign (k : string) (v : Json) : M (World * Dict) unit :=
  modify (fun s => (fst s, dict_set k v (snd s))).

Definition payload : M (World * Dict) Dict := gets snd.

(** A guarded sample: the rows as dicts, or [[]] when the query raises. *)
Definition sample (k : string) (s : Statement) : M (World * Dict) unit :=
  try_except
    (rows <- execute s ;; assign k (dicts rows))
    (fun _ => assign k (JList [])).

Definition test_db : M World Response :=
  eng <- get_engine ;;
  fun w =>
    let frame :=
      (w, [("ok", JBool false); ("dialect", JStr (dialect_name eng))]) in
    let (r, frame') :=
      try_except
        (with_begin
           (execute SetSearchPath ;;
            rows <- execute SelectVersion ;;
            assign "version" (scalar rows) ;;
            rows <- execute CountCoordinates ;;
            assign "coordinates_count" (scalar rows) ;;
            rows <- execute CountMetadata ;;
            assign "metadata_count" (scalar rows) ;;
            rows <- execute CountAnnotationsTerms ;;
            assign "annotations_terms_count" (scalar rows) ;;
            sample "coordinates_sample" SampleCoordinates ;;
            sample "metadata_sample" SampleMetadata ;;
            sample "annotations_terms_sample" SampleAnnotationsTerms) ;;
         assign "ok" (JBool true) ;;
         p <- payload ;;
         ret (jsonify p 200))
        (fun e =>
           assign "error" (JStr (exn_str e)) ;;
           p <- payload ;;
           ret (jsonify p 500))
        frame in
    (r, fst frame').

(** *** Routing *)

Inductive Request :=
| GetHealth
| GetTermStudies (term : string)
| GetLocationStudies (coords : string)
| GetDissociateTerms (term_a term_b : string)
| GetDissociateLocations (coords_a coords_b : string)
| GetTestDb.

Definition dispatch (req : Request) : M World Response :=
  match req with
  | GetHealth => health
  | GetTermStudies term => get_studies_by_term term
  | GetLocationStudies coords => get_studies_by_coordinates coords
  | GetDissociateTerms a b => dissociate_terms a b
  | GetDissociateLocations a b => dissociate_locations a b
  | GetTestDb => test_db
  end.

(** The process serves requests one after the other; an exception that
    leaves a handler is the framework's to report, and the process goes
    on. *)
Fixpoint serve (reqs : list Request) (w : World)
  : list (result Response) * World :=
  match reqs with
  | [] => ([], w)
  | req :: reqs' =>
      let (out, w') := dispatch req w in
      let (outs, w'') := serve reqs' w' in
      (out :: outs, w'')
  end.

(** The requests whose handler gets as far as asking for the engine: all
    but the liveness page and the coordinate routes given a malformed
    triple. *)
Definition needs_store (req : Request) : bool :=
  match req with
  | GetHealth => false
  | GetTermStudies _ | GetDissociateTerms _ _ | GetTestDb => true
  | GetLocationStudies coords =>
      match parse_coords coords with Some _ => true | None => false end
  | GetDissociateLocations a b =>
      match parse_coords a, parse_coords b with
      | Some _, Some _ => true
      | _, _ => false
      end
  end.

End App.

Arguments mkWorld {Engine} _ _ _ _.
Arguments Frame {Engine} S.

(** ** Definitions used to state the properties *)

Section Outcomes.

Variable Engine : Type.
Variable create_engine : string -> bool -> result Engine.
Variable dialect_name : Engine -> string.
Implicit Type w : World Engine.

(** The four statements of the query routes. *)
Definition is_query (s : Statement) : bool :=
  match s with
  | SelectTermStudies _ | SelectLocationStudies _ _ _
  | SelectDissociateTerms _ _ | SelectDissociateLocations _ _ _ _ _ _ => true
  | _ => false
  end.

(** The study ids a store that answers selects for a query statement. *)
Definition selected_ids (s : Statement) (st : Store) : list Z :=
  match s with
  | SelectTermStudies term =>
      distinct (map at_study_id
                    (filter (annotated_with term) (annotations_terms st)))
  | SelectLocationStudies x y z =>
      distinct (map c_study_id (filter (located_at x y z) (coordinates st)))
  | SelectDissociateTerms term_a term_b =>
      distinct (map at_study_id
                  (filter (fun a => annotated_with term_a a
                             && not_in (map at_study_id
                                          (filter (annotated_with term_b)
                                                  (annotations_terms st)))
                                       (at_study_id a))
                          (annotations_terms st)))
  | SelectDissociateLocations x1 y1 z1 x2 y2 z2 =>
      distinct (map c_study_id
                  (filter (fun c => located_at x1 y1 z1 c
                             && not_in (map c_study_id
                                          (filter (located_at x2 y2 z2)
                                                  (coordinates st)))
                                       (c_study_id c))
                          (coordinates st)))
  | _ => []
  end.

(** The block every query route runs once it holds the engine. *)
Definition guarded_query (s : Statement) (not_found : Response)
    (found : list Z -> Response) : M (World Engine) Response :=
  try_except
    (with_begin
       (rows <- execute s ;;
        study_ids <- for_each int_row0 rows ;;
        match study_ids with
        | [] => ret not_found
        | _ => ret (found study_ids)
        end))
    (@error_500 _).

(** The world after the process sent [ops] more to the store. *)
Definition logged (ops : list Op) w : World Engine :=
  mkWorld (DB_URL w) (_engine w) (store w) (trace w ++ ops).

(** The first error the store raises in a transaction that runs the one
    statement [s], and the operations the process sends in it. *)
Definition first_fault (st : Store) (s : Statement) : option string :=
  match fault st OpBegin with
  | Some msg => Some msg
  | None =>
      match fault st (OpExecute s) with
      | Some msg => Some msg
      | None => fault st OpCommit
      end
  end.

Definition attempted (st : Store) (s : Statement) : list Op :=
  match fault st OpBegin with
  | Some _ => [OpBegin]
  | None =>
      match fault st (OpExecute s) with
      | Some _ => [OpBegin; OpExecute s; OpRollback]
      | None => [OpBegin; OpExecute s; OpCommit]
      end
  end.

(** What [guarded_query] comes to. *)
Definition query_outcome (s : Statement) (not_found : Response)
    (found : list Z -> Response) w : result Response * World Engine :=
  (Ok (match first_fault (store w) s with
       | Some msg => jsonify [("error", JStr msg)] 500
       | None =>
           match selected_ids s (store w) with
           | [] => not_found
           | ids => found ids
           end
       end),
   logged (attempted (store w) s) w).

(** The error of a missing configuration. *)
Definition missing_db_url : Exn :=
  mkExn RuntimeError "Missing DB_URL (or DATABASE_URL) environment variable.".

(** A route that asks for the engine, then runs [k]. *)
Definition after_engine (k : M (World Engine) Response) w
  : result Response * World Engine :=
  match get_engine create_engine w with
  | (Ok _, w1) => k w1
  | (Raise e, w1) => (Raise e, w1)
  end.

(** The engine is at hand in [w]: [get_engine] returns [eng] and leaves
    the world [w1]. *)
Definition engine_ready w (eng : Engine) (w1 : World Engine) : Prop :=
  get_engine create_engine w = (Ok eng, w1).

(** The statement a request to a query route runs, when its input passes
    validation. *)
Definition statement_of (req : Request) : option Statement :=
  match req with
  | GetTermStudies term => Some (SelectTermStudies term)
  | GetLocationStudies coords =>
      match parse_coords coords with
      | Some (x, y, z) => Some (SelectLocationStudies x y z)
      | None => None
      end
  | GetDissociateTerms a b => Some (SelectDissociateTerms a b)
  | GetDissociateLocations a b =>
      match parse_coords a, parse_coords b with
      | Some (x1, y1, z1), Some (x2, y2, z2) =>
          Some (SelectDissociateLocations x1 y1 z1 x2 y2 z2)
      | _, _ => None
      end
  | GetHealth | GetTestDb => None
  end.

Definition is_query_route (req : Request) : bool :=
  match req with
  | GetTermStudies _ | GetLocationStudies _ | GetDissociateTerms _ _
  | GetDissociateLocations _ _ => true
  | GetHealth | GetTestDb => false
  end.

End Outcomes.

(** The store answers the one-statement transaction of [s]. *)
Definition answers (st : Store) (s : Statement) : Prop :=
  fault st OpBegin = None /\ fault st (OpExecute s) = None
  /\ fault st OpCommit = None.

(** Study [id] has an annotation row with [term]. *)
Definition has_annotation (st : Store) (term : string) (id : Z) : Prop :=
  exists a, In a (annotations_terms st) /\ at_term a = term
            /\ at_study_id a = id.

(** [ids] lists exactly the values that satisfy [P], each once. *)
Definition exactly_the_distinct (ids : list Z) (P : Z -> Prop) : Prop :=
  NoDup ids /\ forall id, In id ids <-> P id.

(** The integers of a JSON list. *)
Definition ints_of (items : list Json) : list Z :=
  flat_map (fun j => match j with JInt n => [n] | _ => [] end) items.

(** The result set of a request: the [study_ids] of a 200 response, empty
    for any other outcome. *)
Definition result_set (r : result Response) : list Z :=
  match r with
  | Ok (mkResponse code (JsonBody d)) =>
      if code =? 200 then
        match dict_get "study_ids" d with
        | Some (JList items) => ints_of items
        | _ => []
        end
      else []
  | _ => []
  end.

Definition status_of (r : result Response) : option Z :=
  match r with
  | Ok resp => Some (status resp)
  | Raise _ => None
  end.

(** An operation that cannot change a table: transaction control, or the
    execution of a [SELECT]. *)
Definition read_only (op : Op) : bool :=
  match op with
  | OpExecute s => is_select s
  | _ => true
  end.

(** *** Coordinate triples, declaratively *)





Definition invalid_coordinates : Response :=
  jsonify [("error", JStr "Invalid coordinates format. Use x_y_z.")] 400.

(** *** The diagnostics handler, query by query *)

(** The unguarded queries of [test_db] with the payload key each fills. *)
Definition unguarded : list (string * Statement) :=
  [("version", SelectVersion);
   ("coordinates_count", CountCoordinates);
   ("metadata_count", CountMetadata);
   ("annotations_terms_count", CountAnnotationsTerms)].

(** The guarded sample queries with their keys. *)
Definition guarded : list (string * Statement) :=
  [("coordinates_sample", SampleCoordinates);
   ("metadata_sample", SampleMetadata);
   ("annotations_terms_sample", SampleAnnotationsTerms)].

(** Running unguarded queries in order: the fields filled before the first
    error, and that error's message if there is one. *)
Fixpoint run_unguarded (st : Store) (qs : list (string * Statement))
  : Dict * option string :=
  match qs with
  | [] => ([], None)
  | (k, s) :: qs' =>
      match fault st (OpExecute s) with
      | Some msg => ([], Some msg)
      | None =>
          let (fields, err) := run_unguarded st qs' in
          ((k, scalar (fst (eval_statement s st))) :: fields, err)
      end
  end.

(** Running guarded queries: every key is filled, with the rows or with the
    empty list when the query fails. *)
Definition run_guarded (st : Store) (qs : list (string * Statement)) : Dict :=
  map (fun '(k, s) =>
         (k, match fault st (OpExecute s) with
             | Some _ => JList []
             | None => dicts (fst (eval_statement s st))
             end))
      qs.

(** The transaction of [test_db] opens and sets the search path. *)
Definition transaction_opens (st : Store) : Prop :=
  fault st OpBegin = None /\ fault st (OpExecute SetSearchPath) = None.

(** The outcome of [get_engine] when it has to make the engine. *)
Definition created {Engine} (made : result Engine) (w : World Engine)
  : result Engine * World Engine :=
  match made with
  | Ok e => (Ok e, set_engine e w)
  | Raise x => (Raise x, w)
  end.

(** ** A concrete deployment, for examples *)

Module Demo.

(** An engine that remembers its URL; every URL is accepted. *)
Definition create_engine (url : string) (pool_pre_ping : bool) : result string :=
  Ok url.

(** The dialect is the scheme of the URL. *)
Definition dialect_name (eng : string) : string :=
  match PyStr.split ":" eng with
  | scheme :: _ => scheme
  | [] => ""
  end.

Definition annotations : list AnnotationTerm :=
  [mkAnnotation 1 (JInt 10) "pain" (JInt 3);
   mkAnnotation 2 (JInt 11) "fear" (JInt 1);
   mkAnnotation 1 (JInt 12) "fear" (JInt 2);
   mkAnnotation 3 (JInt 13) "pain" (JInt 5);
   mkAnnotation 3 (JInt 14) "pain" (JInt 4)].

Definition points : list Coordinate :=
  [mkCoordinate 1 1 2 3; mkCoordinate 2 (-4) 0 8].

Definition healthy (op : Op) : option string := None.

(** A store whose metadata count fails. *)
Definition metadata_down (op : Op) : option string :=
  match op with
  | OpExecute CountMetadata => Some "relation ns.metadata does not exist"
  | _ => None
  end.

(** A store that refuses connections. *)
Definition unreachable (op : Op) : option string :=
  match op with
  | OpBegin => Some "connection refused"
  | _ => None
  end.

Definition store_with (health : Op -> option string) : Store :=
  mkStore annotations points [[("study_id", JInt 1)]] "PostgreSQL 16.1" []
          health.

Definition world (url : option string) (health : Op -> option string)
  : World string :=
  mkWorld url None (store_with health) [].

Definition url : option string := Some "postgres://user@host/neuro".

(** The engine [get_engine] makes from [url]. *)
Definition engine : string := "postgresql://user@host/neuro".

(** A store whose metadata sample fails. *)
Definition sample_down (op : Op) : option string :=
  match op with
  | OpExecute SampleMetadata => Some "permission denied for table metadata"
  | _ => None
  end.

Definition up : World string := world url healthy.
Definition down : World string := world url unreachable.
Definition degraded : World string := world url sample_down.
Definition broken : World string := world url metadata_down.

(** The same worlds once the engine is memoised. *)
Definition started (w : World string) : World string := set_engine engine w.

End Demo.

(** The fields the unguarded queries of [test_db] fill when all succeed. *)
Definition version_and_counts (st : Store) : Dict :=
  [("version", JStr (server_version st));
   ("coordinates_count", JInt (Z.of_nat (List.length (coordinates st))));
   ("metadata_count", JInt (Z.of_nat (List.length (metadata st))));
   ("annotations_terms_count",
    JInt (Z.of_nat (List.length (annotations_terms st))))].

(** The keys of a JSON response body. *)
Definition body_keys (r : result Response) : list string :=
  match r with
  | Ok (mkResponse _ (JsonBody d)) => dict_keys d
  | _ => []
  end.

(** ** Further definitions: the remaining routes and whole runs *)

(** Study [id] reports a coordinate at the point [(x, y, z)]. *)
Definition has_coordinate (st : Store) (x y z : Z) (id : Z) : Prop :=
  exists c, In c (coordinates st) /\ ST_X c = x /\ ST_Y c = y /\ ST_Z c = z
            /\ c_study_id c = id.


(** The URL [get_engine] hands to the constructor for a given [DB_URL]. *)
Definition normalized_url (db_url : string) : string :=
  if PyStr.startswith "postgres://" db_url
  then "postgresql://" ++ PyStr.slice_from (String.length "postgres://") db_url
  else db_url.

(** Two store states with the same tables, server and health; only the
    session's search path may differ. *)
Definition same_data (st st' : Store) : Prop :=
  annotations_terms st = annotations_terms st'
  /\ coordinates st = coordinates st'
  /\ metadata st = metadata st'
  /\ server_version st = server_version st'
  /\ fault st = fault st'.

(** The response of [test_db] for a dialect name and a store, whatever
    fails. *)
Definition test_db_response (dialect : string) (st : Store) : Response :=
  let head ok := [("ok", JBool ok); ("dialect", JStr dialect)] in
  let failed fields msg :=
    jsonify (head false ++ fields ++ [("error", JStr msg)])%list 500 in
  match fault st OpBegin with
  | Some msg => failed [] msg
  | None =>
      match fault st (OpExecute SetSearchPath) with
      | Some msg => failed [] msg
      | None =>
          match run_unguarded st unguarded with
          | (fields, Some msg) => failed fields msg
          | (fields, None) =>
              let report := (fields ++ run_guarded st guarded)%list in
              match fault st OpCommit with
              | Some msg => failed report msg
              | None => jsonify (head true ++ report)%list 200
              end
          end
      end
  end.

(** The unguarded queries sent: all up to and including the first that
    fails. *)
Fixpoint sent_unguarded (st : Store) (qs : list (string * Statement))
  : list Op :=
  match qs with
  | [] => []
  | (_, s) :: qs' =>
      OpExecute s ::
      match fault st (OpExecute s) with
      | Some _ => []
      | None => sent_unguarded st qs'
      end
  end.

(** The operations [test_db] sends to the store. *)
Definition test_db_ops (st : Store) : list Op :=
  match fault st OpBegin with
  | Some _ => [OpBegin]
  | None =>
      match fault st (OpExecute SetSearchPath) with
      | Some _ => [OpBegin; OpExecute SetSearchPath; OpRollback]
      | None =>
          (OpBegin :: OpExecute SetSearchPath :: sent_unguarded st unguarded
             ++ match snd (run_unguarded st unguarded) with
                | Some _ => [OpRollback]
                | None =>
                    map (fun q => OpExecute (snd q)) guarded ++ [OpCommit]
                end)%list
      end
  end.

(** The store after [test_db]: the search path is set once [SET] went
    through. *)
Definition test_db_store (st : Store) : Store :=
  match fault st OpBegin, fault st (OpExecute SetSearchPath) with
  | None, None => set_search_path ["ns"; "public"] st
  | _, _ => st
  end.

(** A transaction as a handler may leave it in the trace: nothing at all;
    a [BEGIN] that failed; or a [BEGIN], statements only, and one
    [COMMIT] or [ROLLBACK] at the end. *)
Definition is_execute (op : Op) : bool :=
  match op with OpExecute _ => true | _ => false end.

Definition is_end (op : Op) : bool :=
  match op with OpCommit | OpRollback => true | _ => false end.

Definition bracketed (st : Store) (ops : list Op) : Prop :=
  ops = []
  \/ (ops = [OpBegin] /\ fault st OpBegin <> None)
  \/ exists body close,
      ops = (OpBegin :: body ++ [close])%list
      /\ forallb is_execute body = true /\ is_end close = true.

(** The statements of a trace. *)
Definition statements (ops : list Op) : list Statement :=
  flat_map (fun op => match op with OpExecute s => [s] | _ => [] end) ops.

(** The two shapes of a JSON answer of a query route: an error object, or
    an object with a non-empty list of distinct study ids and no error. *)
Definition error_body (resp : Response) : Prop :=
  exists m, body resp = JsonBody [("error", JStr m)].

Definition studies_body (resp : Response) : Prop :=
  exists d ids,
    body resp = JsonBody d
    /\ dict_get "study_ids" d = Some (JInts ids)
    /\ ids <> [] /\ NoDup ids
    /\ dict_get "error" d = None.

(** More of the example deployment. *)
Module DemoMore.

(** A constructor that rejects a URL without a scheme separator, as the
    toolkit does for a string it cannot parse as a URL. *)
Definition picky_create_engine (url : string) (pool_pre_ping : bool)
  : result string :=
  if PyStr.contains "://" url then Ok url
  else Raise (mkExn ValueError
                "Could not parse SQLAlchemy URL from given URL string").

(** A store that fails every commit. *)
Definition commit_down (op : Op) : option string :=
  match op with
  | OpCommit => Some "server closed the connection unexpectedly"
  | _ => None
  end.

Definition uncommitted : World string := Demo.world Demo.url commit_down.

(** A deployment whose DB_URL is not a URL. *)
Definition misconfigured : World string :=
  Demo.world (Some "neuro.db") Demo.healthy.

End DemoMore.

(** * Properties *)

(** ** Python string operations on examples *)

Example split_123 : PyStr.split "_" "1_2_3" = ["1"; "2"; "3"].
Proof. reflexivity. Qed.

Example split_empty_parts : PyStr.split "_" "_1__" = [""; "1"; ""; ""].
Proof. reflexivity. Qed.

Example int_examples :
  PyStr.int "12" = Some 12 /\ PyStr.int " -7 " = Some (-7) /\
  PyStr.int "+007" = Some 7 /\ PyStr.int "1_000" = Some 1000 /\
  PyStr.int "" = None /\ PyStr.int "a" = None /\ PyStr.int "1__0" = None /\
  PyStr.int "_1" = None /\ PyStr.int "1_" = None /\ PyStr.int "- 1" = None /\
  PyStr.int "1 2" = None /\ PyStr.int "--1" = None /\ PyStr.int "-0" = Some 0.
Proof. repeat split; reflexivity. Qed.

Example str_of_int_examples :
  PyStr.str_of_int 0 = "0" /\ PyStr.str_of_int 42 = "42" /\
  PyStr.str_of_int (-13) = "-13".
Proof. repeat split; reflexivity. Qed.

(** ** Coordinate triples *)

Section Coordinates.

Local Open Scope char_scope.



Lemma space_not_sign c :
  PyStr.is_space c = true -> Ascii.eqb c "+" = false /\ Ascii.eqb c "-" = false.
Proof. destruct c as [[] [] [] [] [] [] [] []]; vm_compute; intuition congruence. Qed.





End Coordinates.

Local Open Scope string_scope.




(** *** [split] *)




(** *** [int] *)









(** ** Rendering and re-reading integers *)








(** ** The engine and the query routes *)

Section Proofs.

Variable Engine : Type.
Variable create_engine : string -> bool -> result Engine.
Variable dialect_name : Engine -> string.
Implicit Type w : World Engine.

Lemma bind_run (S A B : Type) (m : M S A) (k : A -> M S B) (s : S) :
  bind m k s = match m s with
               | (Ok a, s') => k a s'
               | (Raise e, s') => (Raise e, s')
               end.
Proof. reflexivity. Qed.

Lemma for_each_int_row0 (S : Type) (ids : list Z) (s : S) :
  for_each int_row0 (study_id_rows ids) s = (Ok ids, s).
Proof.
  induction ids as [|id ids IH]; [reflexivity|].
  cbn. unfold bind. unfold study_id_rows in IH. rewrite IH. reflexivity.
Qed.

Lemma eval_query (s : Statement) (st : Store) :
  is_query s = true ->
  eval_statement s st = (study_id_rows (selected_ids s st), st).
Proof. destruct s; intros Hq; try discriminate Hq; reflexivity. Qed.

Lemma guarded_query_outcome s not_found found w :
  is_query s = true ->
  guarded_query s not_found found w = query_outcome s not_found found w.
Proof.
  intros Hq. destruct w as [url eng st tr].
  unfold guarded_query, query_outcome, try_except, with_begin, execute,
    in_world, store_op, bind, logged, error_500, ret, log, set_store,
    first_fault, attempted; cbn.
  destruct (fault st OpBegin) as [m|]; [reflexivity|]. cbn.
  destruct (fault st (OpExecute s)) as [m|]; cbn.
  { rewrite <- ?app_assoc. reflexivity. }
  rewrite eval_query by exact Hq. cbn.
  rewrite for_each_int_row0. cbn.
  destruct (selected_ids s st) as [|id ids]; cbn;
    destruct (fault st OpCommit); cbn; rewrite <- ?app_assoc; reflexivity.
Qed.

(** [get_engine], case by case. *)
Lemma get_engine_unfold w :
  get_engine create_engine w =
  match _engine w with
  | Some e => (Ok e, w)
  | None =>
      match DB_URL w with
      | None | Some EmptyString => (Raise missing_db_url, w)
      | Some u =>
          match create_engine
                  (if PyStr.startswith "postgres://" u
                   then "postgresql://" ++ PyStr.slice_from 11 u else u) true
          with
          | Ok e => (Ok e, set_engine e w)
          | Raise x => (Raise x, w)
          end
      end
  end.
Proof.
  destruct w as [url eng st tr]. unfold get_engine, bind, gets; cbn.
  destruct eng as [e|]; [reflexivity|].
  destruct url as [[|c u]|]; try reflexivity.
  cbn. destruct (create_engine _ true); reflexivity.
Qed.

Lemma engine_ready_inv w eng w1 :
  engine_ready create_engine w eng w1 ->
  DB_URL w1 = DB_URL w /\ _engine w1 = Some eng /\ store w1 = store w
  /\ trace w1 = trace w.
Proof.
  unfold engine_ready. rewrite get_engine_unfold.
  destruct w as [url [e|] st tr]; cbn.
  - intros H; injection H as <- <-. auto.
  - destruct url as [[|c u]|]; try discriminate.
    destruct (create_engine _ true); try discriminate.
    intros H; injection H as <- <-. auto.
Qed.

Lemma get_engine_raise w x w1 :
  get_engine create_engine w = (Raise x, w1) -> w1 = w.
Proof.
  rewrite get_engine_unfold.
  destruct (_engine w); [discriminate|].
  destruct (DB_URL w) as [[|c u]|]; try (intros H; injection H as _ <-; reflexivity).
  destruct (create_engine _ true); [discriminate|].
  intros H; injection H as _ <-; reflexivity.
Qed.

Lemma get_engine_again w eng w1 :
  engine_ready create_engine w eng w1 -> engine_ready create_engine w1 eng w1.
Proof.
  intros H. destruct (engine_ready_inv H) as (_ & He & _).
  unfold engine_ready. rewrite get_engine_unfold, He. reflexivity.
Qed.

Ltac route_runs handler stmt prepare :=
  let w := fresh "w" in
  intros w; unfold handler, after_engine; prepare; rewrite bind_run;
  destruct (get_engine _ w) as [[?|?] ?]; [|reflexivity];
  apply (@guarded_query_outcome stmt); reflexivity.

Lemma dispatch_query req s :
  statement_of req = Some s ->
  is_query s = true /\
  exists not_found found,
    (forall w,
        dispatch create_engine dialect_name req w =
        after_engine create_engine (query_outcome s not_found found) w)
    /\ status not_found = 404 /\ (forall ids, status (found ids) = 200).
Proof.
  destruct req; cbn; try discriminate.
  - intros H; injection H as <-. split; [reflexivity|].
    do 2 eexists. split; [|split];
      [route_runs get_studies_by_term (SelectTermStudies term) idtac
      |reflexivity..].
  - destruct (parse_coords coords) as [[[x y] z]|] eqn:Hp; [|discriminate].
    intros H; injection H as <-. split; [reflexivity|].
    do 2 eexists. split; [|split];
      [route_runs get_studies_by_coordinates (SelectLocationStudies x y z)
                  ltac:(rewrite Hp)
      |reflexivity..].
  - intros H; injection H as <-. split; [reflexivity|].
    do 2 eexists. split; [|split];
      [route_runs dissociate_terms (SelectDissociateTerms term_a term_b) idtac
      |reflexivity..].
  - destruct (parse_coords coords_a) as [[[x1 y1] z1]|] eqn:Ha; [|discriminate].
    destruct (parse_coords coords_b) as [[[x2 y2] z2]|] eqn:Hb; [|discriminate].
    intros H; injection H as <-. split; [reflexivity|].
    do 2 eexists. split; [|split];
      [route_runs dissociate_locations
                  (SelectDissociateLocations x1 y1 z1 x2 y2 z2)
                  ltac:(rewrite Ha, Hb)
      |reflexivity..].
Qed.

(** ** What the query statements select *)

Lemma In_distinct (ids : list Z) (id : Z) : In id (distinct ids) <-> In id ids.
Proof. unfold distinct. apply nodup_In. Qed.

Lemma NoDup_distinct (ids : list Z) : NoDup (distinct ids).
Proof. unfold distinct. apply NoDup_nodup. Qed.

Lemma annotated_with_iff term a :
  annotated_with term a = true <-> at_term a = term.
Proof. unfold annotated_with. apply String.eqb_eq. Qed.

Lemma In_term_ids st term id :
  In id (map at_study_id (filter (annotated_with term) (annotations_terms st)))
  <-> has_annotation st term id.
Proof.
  unfold has_annotation. rewrite in_map_iff. split.
  - intros (a & Hid & Ha). apply filter_In in Ha as [Ha Ht].
    exists a. rewrite annotated_with_iff in Ht. auto.
  - intros (a & Ha & Ht & Hid). exists a. split; [exact Hid|].
    apply filter_In. split; [exact Ha|]. now apply annotated_with_iff.
Qed.

Lemma not_in_iff (sub : list Z) (v : Z) : not_in sub v = true <-> ~ In v sub.
Proof.
  unfold not_in. rewrite negb_true_iff. split.
  - intros Hf Hin.
    assert (existsb (Z.eqb v) sub = true) as Ht.
    { apply existsb_exists. exists v. split; [exact Hin|apply Z.eqb_refl]. }
    congruence.
  - intros Hn. destruct (existsb (Z.eqb v) sub) eqn:He; [|reflexivity].
    apply existsb_exists in He as (x & Hx & Heq).
    apply Z.eqb_eq in Heq. subst x. contradiction.
Qed.

Lemma selected_term_studies st term :
  exactly_the_distinct (selected_ids (SelectTermStudies term) st)
                       (has_annotation st term).
Proof.
  split; [apply NoDup_distinct|]. intros id. cbn.
  rewrite In_distinct. apply In_term_ids.
Qed.

Lemma selected_dissociate_terms st a b :
  exactly_the_distinct
    (selected_ids (SelectDissociateTerms a b) st)
    (fun id => has_annotation st a id /\ ~ has_annotation st b id).
Proof.
  split; [apply NoDup_distinct|]. intros id. cbn.
  rewrite In_distinct, in_map_iff. split.
  - intros (r & Hid & Hr). apply filter_In in Hr as [Hr Hc].
    apply andb_true_iff in Hc as [Ha Hb].
    rewrite not_in_iff, In_term_ids, Hid in Hb. split; [|exact Hb].
    exists r. rewrite annotated_with_iff in Ha. auto.
  - intros ((r & Hr & Ht & Hid) & Hb). exists r. split; [exact Hid|].
    apply filter_In. split; [exact Hr|]. apply andb_true_iff. split.
    + now apply annotated_with_iff.
    + rewrite not_in_iff, In_term_ids, Hid. exact Hb.
Qed.

Lemma ints_of_JInt (ids : list Z) : ints_of (map JInt ids) = ids.
Proof.
  unfold ints_of. induction ids as [|id ids IH]; cbn; [|rewrite IH]; reflexivity.
Qed.

Lemma first_fault_answers st s : answers st s -> first_fault st s = None.
Proof. intros (Hb & He & Hc). unfold first_fault. now rewrite Hb, He. Qed.

Lemma get_studies_by_term_run term w :
  get_studies_by_term create_engine term w =
  after_engine create_engine
    (query_outcome (SelectTermStudies term)
       (jsonify [("error", JStr ("Term '" ++ term ++ "' not found."))] 404)
       (fun ids => jsonify [("term", JStr term); ("study_ids", JInts ids)] 200))
    w.
Proof.
  revert w. route_runs get_studies_by_term (SelectTermStudies term) idtac.
Qed.

Lemma dissociate_terms_run a b w :
  dissociate_terms create_engine a b w =
  after_engine create_engine
    (query_outcome (SelectDissociateTerms a b)
       (jsonify [("error", JStr ("No studies found for '" ++ a
                                   ++ "' without '" ++ b ++ "'."))] 404)
       (fun ids => jsonify [("term_a", JStr a); ("term_b", JStr b);
                            ("study_ids", JInts ids)] 200))
    w.
Proof.
  revert w. route_runs dissociate_terms (SelectDissociateTerms a b) idtac.
Qed.

(** C2: for every term with at least one annotation row, when the engine
    is at hand and the store answers the query, GET /terms/{term}/studies
    returns 200 with a body holding the term and a non-empty [study_ids]
    that lists exactly the distinct study ids annotated with the term. *)
Theorem terms_studies_found w eng w1 term :
  engine_ready create_engine w eng w1 ->
  answers (store w) (SelectTermStudies term) ->
  (exists id, has_annotation (store w) term id) ->
  exists ids,
    fst (get_studies_by_term create_engine term w)
    = Ok (jsonify [("term", JStr term); ("study_ids", JInts ids)] 200)
    /\ ids <> []
    /\ exactly_the_distinct ids (has_annotation (store w) term).
Proof.
  intros Hready Hans (id & Hid).
  destruct (engine_ready_inv Hready) as (_ & _ & Hst & _).
  rewrite get_studies_by_term_run. unfold after_engine.
  unfold engine_ready in Hready. rewrite Hready.
  unfold query_outcome. cbn [fst]. rewrite Hst.
  rewrite (first_fault_answers Hans).
  pose proof (selected_term_studies (store w) term) as Hex.
  destruct (selected_ids (SelectTermStudies term) (store w)) as [|i ids] eqn:Hsel.
  - destruct Hex as [_ Hin]. apply Hin in Hid. destruct Hid.
  - exists (i :: ids). repeat split; try apply Hex. discriminate.
Qed.

(** ** Substrings *)

Lemma startswith_app (p s : string) : PyStr.startswith p (p ++ s) = true.
Proof.
  induction p as [|c p IH]; cbn; [reflexivity|].
  now rewrite Ascii.eqb_refl, IH.
Qed.

Lemma contains_infix (pre sub post : string) :
  PyStr.contains sub (pre ++ sub ++ post) = true.
Proof.
  induction pre as [|c pre IH].
  - cbn [append]. destruct (sub ++ post) eqn:E; cbn;
      rewrite <- E, startswith_app; reflexivity.
  - cbn [append PyStr.contains]. rewrite IH. apply orb_true_r.
Qed.

(** C9: for every term without an annotation row, when the engine is at
    hand and the store answers the query, GET /terms/{term}/studies returns
    404 with the body {"error": m}, and m contains the requested term. *)
Theorem terms_studies_not_found w eng w1 term :
  engine_ready create_engine w eng w1 ->
  answers (store w) (SelectTermStudies term) ->
  (forall id, ~ has_annotation (store w) term id) ->
  exists m,
    fst (get_studies_by_term create_engine term w)
    = Ok (jsonify [("error", JStr m)] 404)
    /\ m = "Term '" ++ term ++ "' not found."
    /\ PyStr.contains term m = true.
Proof.
  intros Hready Hans Hnone.
  destruct (engine_ready_inv Hready) as (_ & _ & Hst & _).
  exists ("Term '" ++ term ++ "' not found."). split; [|split].
  - rewrite get_studies_by_term_run. unfold after_engine.
    unfold engine_ready in Hready. rewrite Hready.
    unfold query_outcome. cbn [fst]. rewrite Hst.
    rewrite (first_fault_answers Hans).
    pose proof (selected_term_studies (store w) term) as [_ Hin].
    destruct (selected_ids (SelectTermStudies term) (store w)) as [|i ids];
      [reflexivity|].
    exfalso. apply (Hnone i), Hin. now left.
  - reflexivity.
  - apply (contains_infix "Term '" term "' not found.").
Qed.

(** The result set of a route's outcome lies within what its statement
    selects. *)
Lemma result_set_term_route term w id :
  In id (result_set (fst (get_studies_by_term create_engine term w))) ->
  exists w1, store w1 = store w
             /\ In id (selected_ids (SelectTermStudies term) (store w1)).
Proof.
  rewrite get_studies_by_term_run. unfold after_engine.
  destruct (get_engine create_engine w) as [[e|x] w1] eqn:Hg; [|intros []].
  destruct (engine_ready_inv Hg) as (_ & _ & Hst & _).
  unfold query_outcome. cbn [fst].
  destruct (first_fault (store w1) (SelectTermStudies term)); [intros []|].
  destruct (selected_ids (SelectTermStudies term) (store w1)) as [|i ids] eqn:Hs;
    [intros []|].
  intros Hin. cbn in Hin. rewrite ints_of_JInt in Hin.
  exists w1. rewrite Hs. auto.
Qed.

Lemma result_set_dissociate_terms a b w id :
  In id (result_set (fst (dissociate_terms create_engine a b w))) ->
  exists w1, store w1 = store w
             /\ In id (selected_ids (SelectDissociateTerms a b) (store w1)).
Proof.
  rewrite dissociate_terms_run. unfold after_engine.
  destruct (get_engine create_engine w) as [[e|x] w1] eqn:Hg; [|intros []].
  destruct (engine_ready_inv Hg) as (_ & _ & Hst & _).
  unfold query_outcome. cbn [fst].
  destruct (first_fault (store w1) (SelectDissociateTerms a b)); [intros []|].
  destruct (selected_ids (SelectDissociateTerms a b) (store w1)) as [|i ids] eqn:Hs;
    [intros []|].
  intros Hin. cbn in Hin. rewrite ints_of_JInt in Hin.
  exists w1. rewrite Hs. auto.
Qed.

(** C1: for every pair of terms and every store state: when the engine is
    at hand and the store answers, the study_ids returned by
    GET /dissociate/terms/{a}/{b} are exactly the distinct study ids
    annotated with a and not with b; and, whatever the health of the store,
    that result set is disjoint from the result set of
    GET /terms/{b}/studies over the same store. *)
Theorem dissociate_terms_set_difference w a b :
  (forall eng w1,
      engine_ready create_engine w eng w1 ->
      answers (store w) (SelectDissociateTerms a b) ->
      exactly_the_distinct
        (result_set (fst (dissociate_terms create_engine a b w)))
        (fun id => has_annotation (store w) a id
                   /\ ~ has_annotation (store w) b id))
  /\ (forall w' id,
         store w' = store w ->
         In id (result_set (fst (dissociate_terms create_engine a b w))) ->
         ~ In id (result_set (fst (get_studies_by_term create_engine b w')))).
Proof.
  split.
  - intros eng w1 Hready Hans.
    destruct (engine_ready_inv Hready) as (_ & _ & Hst & _).
    rewrite dissociate_terms_run. unfold after_engine.
    unfold engine_ready in Hready. rewrite Hready.
    unfold query_outcome. cbn [fst]. rewrite Hst.
    rewrite (first_fault_answers Hans).
    pose proof (selected_dissociate_terms (store w) a b) as Hex.
    destruct (selected_ids (SelectDissociateTerms a b) (store w)) as [|i ids];
      [exact Hex|].
    cbn. rewrite ints_of_JInt. exact Hex.
  - intros w' id Hsame Hd Ht.
    apply result_set_dissociate_terms in Hd as (w1 & H1 & Hd).
    apply result_set_term_route in Ht as (w2 & H2 & Ht).
    rewrite H1 in Hd. rewrite H2, Hsame in Ht.
    apply selected_dissociate_terms in Hd as [_ Hnb].
    apply selected_term_studies in Ht. contradiction.
Qed.

Lemma selected_dissociate_same st t :
  selected_ids (SelectDissociateTerms t t) st = [].
Proof.
  pose proof (selected_dissociate_terms st t t) as [_ Hin].
  destruct (selected_ids (SelectDissociateTerms t t) st) as [|i ids];
    [reflexivity|].
  destruct (proj1 (Hin i)) as [Ha Hn]; [now left|contradiction].
Qed.

(** C10: for every term t and every store state,
    GET /dissociate/terms/{t}/{t} returns 404 when the engine is at hand
    and the store answers, and in no world at all does it return 200: the
    difference of a study set with itself is empty. *)
Theorem dissociate_same_term_not_found w t :
  (forall eng w1,
      engine_ready create_engine w eng w1 ->
      answers (store w) (SelectDissociateTerms t t) ->
      fst (dissociate_terms create_engine t t w)
      = Ok (jsonify [("error", JStr ("No studies found for '" ++ t
                                       ++ "' without '" ++ t ++ "'."))] 404))
  /\ status_of (fst (dissociate_terms create_engine t t w)) <> Some 200.
Proof.
  rewrite dissociate_terms_run. unfold after_engine. split.
  - intros eng w1 Hready Hans.
    destruct (engine_ready_inv Hready) as (_ & _ & Hst & _).
    unfold engine_ready in Hready. rewrite Hready.
    unfold query_outcome. cbn [fst]. rewrite Hst.
    rewrite (first_fault_answers Hans), selected_dissociate_same. reflexivity.
  - destruct (get_engine create_engine w) as [[e|x] w1]; [|discriminate].
    unfold query_outcome. cbn [fst]. rewrite selected_dissociate_same.
    destruct (first_fault (store w1) (SelectDissociateTerms t t)); discriminate.
Qed.

(** ** The diagnostics handler *)

Ltac run_faults f :=
  repeat match goal with
         | H : f ?op = _ |- context [f ?op] => rewrite H; cbn
         | |- context [f (OpExecute ?s)] =>
             destruct (f (OpExecute s)) eqn:?; cbn
         | |- context [f OpCommit] => destruct (f OpCommit) eqn:?; cbn
         end.

(** [test_db] once its transaction is open: the unguarded queries and the
    commit decide between 200 and 500, the samples never do. *)
Lemma test_db_outcome w eng w1 :
  engine_ready create_engine w eng w1 ->
  transaction_opens (store w) ->
  fst (test_db create_engine dialect_name w) =
  let head ok := [("ok", JBool ok); ("dialect", JStr (dialect_name eng))] in
  match run_unguarded (store w) unguarded with
  | (fields, None) =>
      let samples := run_guarded (store w) guarded in
      match fault (store w) OpCommit with
      | None => Ok (jsonify (head true ++ fields ++ samples)%list 200)
      | Some msg =>
          Ok (jsonify (head false ++ fields ++ samples
                         ++ [("error", JStr msg)])%list 500)
      end
  | (fields, Some msg) =>
      Ok (jsonify (head false ++ fields ++ [("error", JStr msg)])%list 500)
  end.
Proof.
  intros Hready (Hbegin & Hset).
  destruct (engine_ready_inv Hready) as (_ & _ & Hst & _).
  unfold test_db. rewrite bind_run. unfold engine_ready in Hready.
  rewrite Hready. rewrite <- Hst in *. clear Hready Hst.
  destruct w1 as [url e [ats cs md ver sp f] tr]. cbn in Hbegin, Hset.
  unfold try_except, with_begin, sample, try_except, execute, in_world,
    store_op, assign, payload, modify, gets, bind, ret, log, set_store; cbn.
  run_faults f; reflexivity.
Qed.

Lemma run_unguarded_all_ok st :
  (forall k s, In (k, s) unguarded -> fault st (OpExecute s) = None) ->
  run_unguarded st unguarded = (version_and_counts st, None).
Proof.
  intros Hok. unfold unguarded in *. cbn.
  rewrite !(Hok _ _) by (cbn; auto 10). reflexivity.
Qed.

Lemma run_unguarded_some_fails st k s m :
  In (k, s) unguarded -> fault st (OpExecute s) = Some m ->
  exists n msg,
    (n < 4)%nat
    /\ run_unguarded st unguarded
       = (firstn n (version_and_counts st), Some msg)
    /\ (exists q, nth_error unguarded n = Some q
                  /\ fault st (OpExecute (snd q)) = Some msg).
Proof.
  intros Hin Hm. cbn.
  destruct (fault st (OpExecute SelectVersion)) as [m0|] eqn:H0.
  { exists 0%nat, m0. repeat split; [lia|]. eexists. split; [reflexivity|].
    exact H0. }
  destruct (fault st (OpExecute CountCoordinates)) as [m1|] eqn:H1.
  { exists 1%nat, m1. repeat split; [lia|]. eexists. split; [reflexivity|].
    exact H1. }
  destruct (fault st (OpExecute CountMetadata)) as [m2|] eqn:H2.
  { exists 2%nat, m2. repeat split; [lia|]. eexists. split; [reflexivity|].
    exact H2. }
  destruct (fault st (OpExecute CountAnnotationsTerms)) as [m3|] eqn:H3.
  { exists 3%nat, m3. repeat split; [lia|]. eexists. split; [reflexivity|].
    exact H3. }
  exfalso. cbn in Hin.
  destruct Hin as [E|[E|[E|[E|[]]]]]; injection E as _ <-; congruence.
Qed.

(** C3 (amended): in GET /test_db, with the engine at hand and a
    transaction that opens and sets the search path: when the version query
    and the three counts succeed and the transaction commits, the handler
    returns 200 with ok:true, each sample field holding its rows or, if its
    query failed, the empty list; when the version query or a count fails,
    the handler returns 500 with ok:false, dialect, the version and count
    fields filled before the first failing query, and the error message of
    that query. *)
Theorem test_db_partial_failure_policy w eng w1 :
  engine_ready create_engine w eng w1 ->
  transaction_opens (store w) ->
  ((forall k s, In (k, s) unguarded -> fault (store w) (OpExecute s) = None) ->
   fault (store w) OpCommit = None ->
   fst (test_db create_engine dialect_name w)
   = Ok (jsonify ([("ok", JBool true); ("dialect", JStr (dialect_name eng))]
                    ++ version_and_counts (store w)
                    ++ run_guarded (store w) guarded)%list 200))
  /\ (forall k s m,
         In (k, s) unguarded -> fault (store w) (OpExecute s) = Some m ->
         exists n msg,
           (n < 4)%nat
           /\ (exists q, nth_error unguarded n = Some q
                         /\ fault (store w) (OpExecute (snd q)) = Some msg)
           /\ fst (test_db create_engine dialect_name w)
              = Ok (jsonify
                      ([("ok", JBool false);
                        ("dialect", JStr (dialect_name eng))]
                         ++ firstn n (version_and_counts (store w))
                         ++ [("error", JStr msg)])%list 500)).
Proof.
  intros Hready Htx. rewrite (test_db_outcome Hready Htx). cbn zeta. split.
  - intros Hok Hcommit. now rewrite (run_unguarded_all_ok _ Hok), Hcommit.
  - intros k s m Hin Hm.
    destruct (run_unguarded_some_fails _ Hin Hm) as (n & msg & Hn & Hrun & Hq).
    exists n, msg. rewrite Hrun. auto.
Qed.

(** ** Validation of coordinates *)



(** ** Store errors *)

Lemma NoDup_attempted st s : NoDup (attempted st s).
Proof.
  unfold attempted.
  destruct (fault st OpBegin); [|destruct (fault st (OpExecute s))];
    repeat constructor; cbn; intuition discriminate.
Qed.

(** C5: on every query route whose input passes validation, with the
    engine at hand: the handler always answers with a response of its own
    (no exception leaves it); when the store fails the connection, the
    query or the commit with message m, the response is 500 with the body
    {"error": m}; and each operation was sent to the store at most once
    (no retry). *)
Theorem store_errors_become_500 req s w eng w1 :
  statement_of req = Some s ->
  engine_ready create_engine w eng w1 ->
  (exists resp, fst (dispatch create_engine dialect_name req w) = Ok resp)
  /\ (forall m,
         first_fault (store w) s = Some m ->
         dispatch create_engine dialect_name req w
         = (Ok (jsonify [("error", JStr m)] 500),
            logged (attempted (store w) s) w1))
  /\ NoDup (attempted (store w) s).
Proof.
  intros Hs Hready.
  destruct (dispatch_query _ Hs) as (_ & not_found & found & Hrun & _).
  destruct (engine_ready_inv Hready) as (_ & _ & Hst & _).
  rewrite Hrun. unfold after_engine. unfold engine_ready in Hready.
  rewrite Hready. unfold query_outcome. rewrite Hst.
  split; [eexists; reflexivity|]. split; [|apply NoDup_attempted].
  intros m ->. reflexivity.
Qed.

(** ** Configuration *)

(** C6: when DB_URL is absent, [get_engine] raises and memoises nothing,
    so in a process started without it every request that needs the store,
    however many requests were served before, ends in that error instead
    of a response. *)
Theorem missing_db_url_is_fatal (st : Store) (tr : list Op)
    (reqs : list Request) :
  get_engine create_engine (mkWorld None None st tr)
  = (Raise missing_db_url, mkWorld None None st tr)
  /\ Forall2 (fun req out =>
                needs_store req = true -> out = Raise missing_db_url)
             reqs
             (fst (serve create_engine dialect_name reqs
                         (mkWorld None None st tr))).
Proof.
  split; [reflexivity|].
  induction reqs as [|req reqs IH]; cbn [serve]; [constructor|].
  assert (snd (dispatch create_engine dialect_name req (mkWorld None None st tr))
          = mkWorld None None st tr
          /\ (needs_store req = true ->
              fst (dispatch create_engine dialect_name req
                            (mkWorld None None st tr))
              = Raise missing_db_url)) as [Hw Hout].
  { destruct req; cbn; auto.
    - split; [reflexivity|discriminate].
    - unfold get_studies_by_coordinates.
      destruct (parse_coords coords) as [[[x y] z]|]; cbn; auto.
      split; [reflexivity|discriminate].
    - unfold dissociate_locations.
      destruct (parse_coords coords_a) as [[[x1 y1] z1]|];
        [destruct (parse_coords coords_b) as [[[x2 y2] z2]|]|]; cbn; auto;
        split; try reflexivity; discriminate. }
  destruct (dispatch create_engine dialect_name req (mkWorld None None st tr))
    as [out w'].
  cbn in Hw, Hout. subst w'.
  destruct (serve create_engine dialect_name reqs (mkWorld None None st tr))
    as [outs w''].
  cbn [fst] in *. constructor; assumption.
Qed.

(** C7 (amended): when [get_engine] has to make the engine: for every
    connection string that starts with "postgres://" the engine is created
    with that prefix replaced by "postgresql://" and the remainder
    unchanged; every non-empty connection string that does not start with
    the prefix is passed to the constructor unmodified. *)
Theorem legacy_scheme_normalized :
  (forall rest w,
      DB_URL w = Some ("postgres://" ++ rest) -> _engine w = None ->
      get_engine create_engine w
      = created (create_engine ("postgresql://" ++ rest) true) w)
  /\ (forall url w,
         DB_URL w = Some url -> _engine w = None ->
         url <> "" -> PyStr.startswith "postgres://" url = false ->
         get_engine create_engine w = created (create_engine url true) w).
Proof.
  split.
  - intros rest w Hurl Hnone. rewrite get_engine_unfold, Hnone, Hurl.
    cbn. destruct (create_engine _ true); reflexivity.
  - intros url w Hurl Hnone Hne Hpre. rewrite get_engine_unfold, Hnone, Hurl.
    destruct url as [|c url]; [contradiction|]. rewrite Hpre.
    destruct (create_engine _ true); reflexivity.
Qed.

(** ** Idempotence *)

Lemma is_query_select s : is_query s = true -> is_select s = true.
Proof. destruct s; intros H; try discriminate H; reflexivity. Qed.

Lemma read_only_attempted st s :
  is_query s = true -> forallb read_only (attempted st s) = true.
Proof.
  intros Hq. unfold attempted.
  destruct (fault st OpBegin); [reflexivity|].
  destruct (fault st (OpExecute s)); cbn [forallb read_only];
    now rewrite (is_query_select _ Hq).
Qed.

Lemma get_engine_logged ops w e :
  _engine w = Some e ->
  get_engine create_engine (logged ops w) = (Ok e, logged ops w).
Proof. intros H. rewrite get_engine_unfold. cbn. now rewrite H. Qed.

(** C8: every query route is idempotent and read-only: served twice in a
    row with the same input, it gives the same outcome (status and body)
    both times; the store is the same after each call; and all it sends to
    the store is transaction control and SELECT statements. *)
Theorem query_routes_idempotent_read_only req w :
  is_query_route req = true ->
  let first := dispatch create_engine dialect_name req w in
  let second := dispatch create_engine dialect_name req (snd first) in
  fst second = fst first
  /\ store (snd first) = store w
  /\ store (snd second) = store w
  /\ exists ops ops',
      trace (snd first) = (trace w ++ ops)%list
      /\ trace (snd second) = (trace (snd first) ++ ops')%list
      /\ forallb read_only ops = true /\ forallb read_only ops' = true.
Proof.
  intros Hroute. cbn zeta.
  destruct (dispatch create_engine dialect_name req w) as [r1 wa] eqn:H1.
  cbn [fst snd].
  destruct (dispatch create_engine dialect_name req wa) as [r2 wb] eqn:H2.
  cbn [fst snd].
  destruct (statement_of req) as [s|] eqn:Hs.
  - destruct (dispatch_query _ Hs) as (Hq & not_found & found & Hrun & _).
    rewrite Hrun in H1, H2. unfold after_engine in H1.
    destruct (get_engine create_engine w) as [[e|x] w1] eqn:Hg.
    + destruct (engine_ready_inv Hg) as (_ & He & Hst & Htr).
      unfold query_outcome in H1. injection H1 as <- <-.
      unfold after_engine in H2. rewrite (get_engine_logged _ _ He) in H2.
      unfold query_outcome in H2. cbn [store logged] in H2.
      injection H2 as <- <-. cbn [store trace logged].
      rewrite Hst, Htr. repeat split.
      exists (attempted (store w) s), (attempted (store w) s).
      repeat split; auto using read_only_attempted.
    + apply get_engine_raise in Hg as Hw. subst w1.
      injection H1 as <- <-. unfold after_engine in H2. rewrite Hg in H2.
      injection H2 as <- <-. repeat split.
      exists [], []. now rewrite !app_nil_r.
  - assert (forall w0, dispatch create_engine dialect_name req w0
                       = (Ok invalid_coordinates, w0)) as Hbad.
    { intros w0. destruct req; try discriminate; cbn in Hs |- *.
      - unfold get_studies_by_coordinates.
        destruct (parse_coords coords) as [[[x y] z]|]; [discriminate|].
        reflexivity.
      - unfold dissociate_locations.
        destruct (parse_coords coords_a) as [[[x1 y1] z1]|];
          [destruct (parse_coords coords_b) as [[[x2 y2] z2]|]|];
          try discriminate; reflexivity. }
    rewrite Hbad in H1, H2. injection H1 as <- <-. injection H2 as <- <-.
    repeat split. exists [], []. now rewrite !app_nil_r.
Qed.

(** ** The diagnostics handler in full *)

(** [test_db], whatever the store fails. *)
Lemma test_db_run w :
  test_db create_engine dialect_name w =
  match get_engine create_engine w with
  | (Ok eng, w1) =>
      (Ok (test_db_response (dialect_name eng) (store w1)),
       mkWorld (DB_URL w1) (_engine w1) (test_db_store (store w1))
               (trace w1 ++ test_db_ops (store w1)))
  | (Raise x, w1) => (Raise x, w1)
  end.
Proof.
  unfold test_db. rewrite bind_run.
  destruct (get_engine create_engine w) as [[eng|x] w1]; [|reflexivity].
  destruct w1 as [url e [ats cs md ver sp f] tr].
  unfold test_db_response, test_db_ops, test_db_store, try_except, with_begin,
    sample, try_except, execute, in_world, store_op, assign, payload, modify,
    gets, bind, ret, log, set_store; cbn.
  destruct (f OpBegin); cbn; [reflexivity|].
  destruct (f (OpExecute SetSearchPath)); cbn;
    [rewrite <- ?app_assoc; reflexivity|].
  run_faults f; rewrite <- ?app_assoc; reflexivity.
Qed.

(** ** Every route at once *)

(** A request either never looks at the world, or runs one guarded query
    behind the engine, or is the diagnostics request. *)
Lemma dispatch_cases req :
  (exists resp, forall w,
      dispatch create_engine dialect_name req w = (Ok resp, w))
  \/ (exists s not_found found,
         is_query s = true
         /\ forall w,
             dispatch create_engine dialect_name req w
             = after_engine create_engine (query_outcome s not_found found) w)
  \/ req = GetTestDb.
Proof.
  destruct (statement_of req) as [s|] eqn:Hs.
  - right; left. destruct (dispatch_query _ Hs) as (Hq & nf & f & Hrun & _).
    exists s, nf, f. auto.
  - destruct req; cbn in Hs; try discriminate; auto.
    + left. eexists. intros w. reflexivity.
    + left. exists invalid_coordinates. intros w. cbn.
      unfold get_studies_by_coordinates.
      destruct (parse_coords coords) as [[[x y] z]|]; [discriminate|].
      reflexivity.
    + left. exists invalid_coordinates. intros w. cbn.
      unfold dissociate_locations.
      destruct (parse_coords coords_a) as [[[x1 y1] z1]|];
        [destruct (parse_coords coords_b) as [[[x2 y2] z2]|]|];
        try discriminate; reflexivity.
Qed.

Lemma same_data_refl st : same_data st st.
Proof. repeat split. Qed.

Lemma same_data_trans st1 st2 st3 :
  same_data st1 st2 -> same_data st2 st3 -> same_data st1 st3.
Proof.
  intros (A1 & B1 & C1 & D1 & E1) (A2 & B2 & C2 & D2 & E2).
  repeat split; congruence.
Qed.

Lemma same_data_test_db_store st : same_data st (test_db_store st).
Proof.
  unfold test_db_store.
  destruct (fault st OpBegin); [apply same_data_refl|].
  destruct (fault st (OpExecute SetSearchPath)); repeat split.
Qed.

Ltac same_data_subst H :=
  match type of H with
  | same_data ?st ?st' =>
      destruct st, st'; destruct H as (? & ? & ? & ? & ?); cbn in *; subst
  end.

Lemma first_fault_same_data st st' s :
  same_data st st' -> first_fault st s = first_fault st' s.
Proof. intros H. same_data_subst H. reflexivity. Qed.

Lemma selected_ids_same_data st st' s :
  same_data st st' -> selected_ids s st = selected_ids s st'.
Proof. intros H. same_data_subst H. destruct s; reflexivity. Qed.

Lemma attempted_same_data st st' s :
  same_data st st' -> attempted st s = attempted st' s.
Proof. intros H. same_data_subst H. reflexivity. Qed.

Lemma test_db_response_same_data d st st' :
  same_data st st' -> test_db_response d st = test_db_response d st'.
Proof. intros H. same_data_subst H. reflexivity. Qed.

(** What a request leaves of the world: the environment and the data of
    the store are kept, the engine [get_engine] returns is the same as
    before, and the trace grows by what the handler sent. *)
Lemma dispatch_world req w :
  exists ops,
    DB_URL (snd (dispatch create_engine dialect_name req w)) = DB_URL w
    /\ same_data (store w)
                 (store (snd (dispatch create_engine dialect_name req w)))
    /\ fst (get_engine create_engine
                       (snd (dispatch create_engine dialect_name req w)))
       = fst (get_engine create_engine w)
    /\ trace (snd (dispatch create_engine dialect_name req w))
       = (trace w ++ ops)%list
    /\ (ops = []
        \/ (exists s, is_query s = true /\ ops = attempted (store w) s)
        \/ (req = GetTestDb /\ ops = test_db_ops (store w))).
Proof.
  destruct (dispatch_cases req) as [(resp & Hrun)|[(s & nf & f & Hq & Hrun)| ->]].
  - rewrite Hrun. exists []. cbn. rewrite app_nil_r.
    repeat split; auto using same_data_refl.
  - rewrite Hrun. unfold after_engine.
    destruct (get_engine create_engine w) as [[e|x] w1] eqn:Hg.
    + destruct (engine_ready_inv Hg) as (Hurl & He & Hst & Htr).
      exists (attempted (store w) s). unfold query_outcome. cbn [snd].
      rewrite (get_engine_logged _ _ He). cbn. rewrite Hst, Htr, Hurl.
      repeat split; eauto.
    + apply get_engine_raise in Hg as Hw. subst w1. exists [].
      cbn [fst snd]. rewrite Hg, app_nil_r.
      repeat split; auto using same_data_refl.
  - cbn [dispatch]. rewrite test_db_run.
    destruct (get_engine create_engine w) as [[e|x] w1] eqn:Hg.
    + destruct (engine_ready_inv Hg) as (Hurl & He & Hst & Htr).
      exists (test_db_ops (store w)). cbn [snd].
      rewrite get_engine_unfold. cbn. rewrite He, Hst, Htr, Hurl.
      split; [reflexivity|]. split; [apply same_data_test_db_store|].
      split; [reflexivity|]. split; [reflexivity|]. right; right. now split.
    + apply get_engine_raise in Hg as Hw. subst w1. exists [].
      cbn [fst snd]. rewrite Hg, app_nil_r.
      repeat split; auto using same_data_refl.
Qed.

(** The outcome of a request depends on the world only through the engine
    [get_engine] returns and the data of the store. *)
Lemma dispatch_outcome_stable req w w' :
  same_data (store w) (store w') ->
  fst (get_engine create_engine w) = fst (get_engine create_engine w') ->
  fst (dispatch create_engine dialect_name req w)
  = fst (dispatch create_engine dialect_name req w').
Proof.
  intros Hdata Heng.
  destruct (dispatch_cases req) as [(resp & Hrun)|[(s & nf & f & Hq & Hrun)| ->]].
  - now rewrite !Hrun.
  - rewrite !Hrun. unfold after_engine.
    destruct (get_engine create_engine w) as [[e|x] w1] eqn:Hg;
      destruct (get_engine create_engine w') as [[e'|x'] w1'] eqn:Hg';
      cbn in Heng; try discriminate; try (injection Heng as <-; reflexivity).
    destruct (engine_ready_inv Hg) as (_ & _ & Hst & _).
    destruct (engine_ready_inv Hg') as (_ & _ & Hst' & _).
    unfold query_outcome. cbn [fst]. rewrite Hst, Hst'.
    now rewrite (first_fault_same_data s Hdata),
      (selected_ids_same_data s Hdata).
  - cbn [dispatch]. rewrite !test_db_run.
    destruct (get_engine create_engine w) as [[e|x] w1] eqn:Hg;
      destruct (get_engine create_engine w') as [[e'|x'] w1'] eqn:Hg';
      cbn in Heng; try discriminate; try (injection Heng as <-; reflexivity).
    destruct (engine_ready_inv Hg) as (_ & _ & Hst & _).
    destruct (engine_ready_inv Hg') as (_ & _ & Hst' & _).
    injection Heng as <-. cbn [fst]. rewrite Hst, Hst'.
    now rewrite (test_db_response_same_data _ Hdata).
Qed.

(** ** Whole runs of the service *)

Lemma serve_related reqs w w' :
  same_data (store w) (store w') ->
  fst (get_engine create_engine w) = fst (get_engine create_engine w') ->
  fst (serve create_engine dialect_name reqs w')
  = map (fun req => fst (dispatch create_engine dialect_name req w)) reqs.
Proof.
  revert w'. induction reqs as [|req reqs IH]; intros w' Hdata Heng;
    [reflexivity|].
  cbn [serve map].
  pose proof (dispatch_outcome_stable req w w' Hdata Heng) as Hout.
  destruct (dispatch_world req w') as (ops & _ & Hdata' & Heng' & _).
  destruct (dispatch create_engine dialect_name req w') as [out w''].
  cbn [fst snd] in *.
  specialize (IH w'' (same_data_trans Hdata Hdata')
                 (eq_trans Heng (eq_sym Heng'))).
  destruct (serve create_engine dialect_name reqs w'') as [outs w3].
  cbn [fst] in *. now rewrite Hout, IH.
Qed.

Lemma serve_outcomes (reqs : list Request) w :
  fst (serve create_engine dialect_name reqs w)
  = map (fun req => fst (dispatch create_engine dialect_name req w)) reqs.
Proof. apply serve_related; [apply same_data_refl|reflexivity]. Qed.


Lemma serve_world reqs w :
  DB_URL (snd (serve create_engine dialect_name reqs w)) = DB_URL w
  /\ same_data (store w) (store (snd (serve create_engine dialect_name reqs w)))
  /\ fst (get_engine create_engine
                     (snd (serve create_engine dialect_name reqs w)))
     = fst (get_engine create_engine w).
Proof.
  revert w. induction reqs as [|req reqs IH]; intros w.
  - cbn. auto using same_data_refl.
  - cbn [serve].
    destruct (dispatch_world req w) as (ops & Hurl & Hdata & Heng & _).
    destruct (dispatch create_engine dialect_name req w) as [out w'].
    cbn [snd] in *. destruct (IH w') as (Hurl' & Hdata' & Heng').
    destruct (serve create_engine dialect_name reqs w') as [outs w''].
    cbn [snd] in *. split; [congruence|]. split; [|congruence].
    eapply same_data_trans; eassumption.
Qed.



Lemma dispatch_needs_engine req w x :
  needs_store req = true ->
  fst (get_engine create_engine w) = Raise x ->
  fst (dispatch create_engine dialect_name req w) = Raise x.
Proof.
  intros Hneeds Hraise.
  assert (forall k, fst (after_engine create_engine k w) = Raise x) as Hafter.
  { intros k. unfold after_engine.
    destruct (get_engine create_engine w) as [[e|x'] w1]; cbn in Hraise;
      [discriminate|]. now injection Hraise as ->. }
  destruct (dispatch_cases req) as [(resp & Hrun)|[(s & nf & f & Hq & Hrun)| ->]].
  - exfalso. destruct req; cbn in Hneeds; try discriminate;
      pose proof (Hrun w) as H; cbn in H.
    + unfold get_studies_by_term in H. rewrite bind_run in H.
      destruct (get_engine create_engine w) as [[e|x'] w1]; cbn in Hraise;
        discriminate.
    + unfold get_studies_by_coordinates in H.
      destruct (parse_coords coords) as [[[a b] c]|]; [|discriminate].
      rewrite bind_run in H.
      destruct (get_engine create_engine w) as [[e|x'] w1]; cbn in Hraise;
        discriminate.
    + unfold dissociate_terms in H. rewrite bind_run in H.
      destruct (get_engine create_engine w) as [[e|x'] w1]; cbn in Hraise;
        discriminate.
    + unfold dissociate_locations in H.
      destruct (parse_coords coords_a) as [[[a b] c]|]; [|discriminate].
      destruct (parse_coords coords_b) as [[[a' b'] c']|]; [|discriminate].
      rewrite bind_run in H.
      destruct (get_engine create_engine w) as [[e|x'] w1]; cbn in Hraise;
        discriminate.
    + unfold test_db in H. rewrite bind_run in H.
      destruct (get_engine create_engine w) as [[e|x'] w1]; cbn in Hraise;
        discriminate.
  - rewrite Hrun. apply Hafter.
  - cbn [dispatch]. rewrite test_db_run.
    destruct (get_engine create_engine w) as [[e|x'] w1]; cbn in Hraise;
      [discriminate|]. now injection Hraise as ->.
Qed.

(** X3: a failure to build the engine is not memoised and is never
    handled: when the constructor raises on the configured URL, every
    request that needs the store, at any position of any sequence, ends in
    that same exception, and the process keeps no engine. *)
Theorem engine_failure_is_not_memoised (reqs : list Request) w url x :
  DB_URL w = Some url -> url <> "" -> _engine w = None ->
  create_engine (normalized_url url) true = Raise x ->
  Forall2 (fun req out => needs_store req = true -> out = Raise x)
          reqs (fst (serve create_engine dialect_name reqs w))
  /\ _engine (snd (serve create_engine dialect_name reqs w)) = None.
Proof.
  intros Hurl Hne Hnone Hmake.
  assert (get_engine create_engine w = (Raise x, w)) as Hg.
  { rewrite get_engine_unfold, Hnone, Hurl.
    destruct url as [|c url]; [contradiction|].
    unfold normalized_url in Hmake. cbn [String.length] in Hmake.
    now rewrite Hmake. }
  split.
  - rewrite serve_outcomes. induction reqs as [|req reqs IH]; constructor; auto.
    intros Hneeds. apply dispatch_needs_engine; [exact Hneeds|now rewrite Hg].
  - destruct (serve_world reqs w) as (Hurl' & _ & Heng).
    rewrite Hg in Heng. cbn [fst] in Heng.
    rewrite get_engine_unfold in Heng.
    destruct (_engine (snd (serve create_engine dialect_name reqs w)));
      [discriminate|reflexivity].
Qed.

(** ** What is sent to the store *)

Lemma forallb_is_execute_sent st qs :
  forallb is_execute (sent_unguarded st qs) = true.
Proof.
  induction qs as [|[k s] qs IH]; [reflexivity|]. cbn.
  destruct (fault st (OpExecute s)); [reflexivity|exact IH].
Qed.

Lemma bracketed_attempted st s : bracketed st (attempted st s).
Proof.
  unfold attempted, bracketed.
  destruct (fault st OpBegin) as [m|] eqn:Hb.
  - right; left. split; [reflexivity|discriminate].
  - right; right. destruct (fault st (OpExecute s)).
    + exists [OpExecute s], OpRollback. repeat split.
    + exists [OpExecute s], OpCommit. repeat split.
Qed.

Lemma bracketed_test_db_ops st : bracketed st (test_db_ops st).
Proof.
  unfold test_db_ops, bracketed.
  destruct (fault st OpBegin) as [m|] eqn:Hb.
  { right; left. split; [reflexivity|discriminate]. }
  right; right. destruct (fault st (OpExecute SetSearchPath)).
  { exists [OpExecute SetSearchPath], OpRollback. repeat split. }
  destruct (snd (run_unguarded st unguarded)).
  - exists (OpExecute SetSearchPath :: sent_unguarded st unguarded), OpRollback.
    repeat split. cbn [forallb is_execute].
    apply forallb_is_execute_sent.
  - exists (OpExecute SetSearchPath :: sent_unguarded st unguarded
              ++ map (fun q => OpExecute (snd q)) guarded)%list, OpCommit.
    split; [|split; [|reflexivity]].
    + cbn [app]. now rewrite <- app_assoc.
    + cbn [forallb is_execute]. rewrite forallb_app.
      now rewrite forallb_is_execute_sent.
Qed.

(** X4: every handler closes the transaction it opens and sends nothing
    outside of it: what a request adds to the trace is nothing at all, or
    a [BEGIN] that the store failed, or one [BEGIN], then statements only,
    then exactly one [COMMIT] or [ROLLBACK] as the last operation. *)
Theorem handlers_close_their_transaction (req : Request) w :
  exists ops,
    trace (snd (dispatch create_engine dialect_name req w))
    = (trace w ++ ops)%list
    /\ bracketed (store w) ops.
Proof.
  destruct (dispatch_world req w) as (ops & _ & _ & _ & Htrace & Hops).
  exists ops. split; [exact Htrace|].
  destruct Hops as [->|[(s & _ & ->)|[_ ->]]].
  - now left.
  - apply bracketed_attempted.
  - apply bracketed_test_db_ops.
Qed.

Lemma statements_app ops ops' :
  statements (ops ++ ops') = (statements ops ++ statements ops')%list.
Proof. unfold statements. apply flat_map_app. Qed.

Lemma statements_attempted st s q :
  In q (statements (attempted st s)) -> q = s.
Proof.
  unfold attempted. destruct (fault st OpBegin); [intros []|].
  destruct (fault st (OpExecute s)); cbn; intuition.
Qed.

Lemma statements_sent_unguarded st qs q :
  In q (statements (sent_unguarded st qs)) -> In q (map snd qs).
Proof.
  induction qs as [|[k s] qs IH]; [intros []|]. cbn.
  intros [->|Hin]; [now left|]. right.
  destruct (fault st (OpExecute s)); [destruct Hin|auto].
Qed.

Lemma statements_test_db_ops st q :
  In q (statements (test_db_ops st)) -> is_select q = true \/ q = SetSearchPath.
Proof.
  unfold test_db_ops. destruct (fault st OpBegin); [cbn; intuition|].
  destruct (fault st (OpExecute SetSearchPath)).
  { cbn. intros [<-|[]]. now right. }
  change (OpBegin :: OpExecute SetSearchPath :: ?l)
    with ([OpBegin; OpExecute SetSearchPath] ++ l)%list.
  rewrite !statements_app. cbn [statements flat_map app].
  intros [<-|Hin]; [now right|]. left.
  apply in_app_or in Hin as [Hin|Hin].
  - apply statements_sent_unguarded in Hin. cbn in Hin.
    intuition (subst; reflexivity).
  - destruct (snd (run_unguarded st unguarded)); cbn in Hin;
      intuition (subst; reflexivity).
Qed.

Lemma serve_trace reqs w :
  exists ops,
    trace (snd (serve create_engine dialect_name reqs w))
    = (trace w ++ ops)%list
    /\ (forall q, In q (statements ops) ->
                  is_select q = true
                  \/ (q = SetSearchPath /\ In GetTestDb reqs)).
Proof.
  revert w. induction reqs as [|req reqs IH]; intros w.
  - exists []. cbn. rewrite app_nil_r. split; [reflexivity|intros q []].
  - cbn [serve].
    destruct (dispatch_world req w) as (ops & _ & _ & _ & Htrace & Hops).
    destruct (dispatch create_engine dialect_name req w) as [out w'] eqn:Hd.
    cbn [snd] in *. destruct (IH w') as (ops' & Htrace' & Hsel).
    destruct (serve create_engine dialect_name reqs w') as [outs w''].
    cbn [snd] in *. exists (ops ++ ops')%list. split.
    + now rewrite Htrace', Htrace, app_assoc.
    + intros q Hin. rewrite statements_app in Hin.
      apply in_app_or in Hin as [Hin|Hin].
      * destruct Hops as [->|[(s & Hq & ->)|[-> ->]]].
        -- destruct Hin.
        -- apply statements_attempted in Hin. subst q. left.
           now apply is_query_select.
        -- apply statements_test_db_ops in Hin as [Hs| ->]; [now left|].
           right. split; [reflexivity|now left].
      * destruct (Hsel q Hin) as [Hs|[-> Ht]]; [now left|].
        right. split; [reflexivity|now right].
Qed.

(** X5: the service only reads: in any run, the three tables, the server
    and the environment are as they were, and every statement sent is a
    [SELECT], except the [SET search_path] that only /test_db sends. *)
Theorem serve_only_reads (reqs : list Request) w :
  DB_URL (snd (serve create_engine dialect_name reqs w)) = DB_URL w
  /\ same_data (store w) (store (snd (serve create_engine dialect_name reqs w)))
  /\ exists ops,
      trace (snd (serve create_engine dialect_name reqs w))
      = (trace w ++ ops)%list
      /\ (forall q, In q (statements ops) ->
                    is_select q = true
                    \/ (q = SetSearchPath /\ In GetTestDb reqs)).
Proof.
  destruct (serve_world reqs w) as (Hurl & Hdata & _).
  split; [exact Hurl|]. split; [exact Hdata|]. apply serve_trace.
Qed.

(** ** The coordinate routes *)

Lemma located_at_iff x y z c :
  located_at x y z c = true <-> ST_X c = x /\ ST_Y c = y /\ ST_Z c = z.
Proof.
  unfold located_at. rewrite !andb_true_iff, !Z.eqb_eq. tauto.
Qed.

Lemma In_point_ids st x y z id :
  In id (map c_study_id (filter (located_at x y z) (coordinates st)))
  <-> has_coordinate st x y z id.
Proof.
  unfold has_coordinate. rewrite in_map_iff. split.
  - intros (c & Hid & Hc). apply filter_In in Hc as [Hc Hat].
    apply located_at_iff in Hat. exists c. tauto.
  - intros (c & Hc & Hx & Hy & Hz & Hid). exists c. split; [exact Hid|].
    apply filter_In. split; [exact Hc|]. now apply located_at_iff.
Qed.

Lemma selected_location_studies st x y z :
  exactly_the_distinct (selected_ids (SelectLocationStudies x y z) st)
                       (has_coordinate st x y z).
Proof.
  split; [apply NoDup_distinct|]. intros id. cbn.
  rewrite In_distinct. apply In_point_ids.
Qed.

Lemma selected_dissociate_locations st x1 y1 z1 x2 y2 z2 :
  exactly_the_distinct
    (selected_ids (SelectDissociateLocations x1 y1 z1 x2 y2 z2) st)
    (fun id => has_coordinate st x1 y1 z1 id
               /\ ~ has_coordinate st x2 y2 z2 id).
Proof.
  split; [apply NoDup_distinct|]. intros id. cbn.
  rewrite In_distinct, in_map_iff. split.
  - intros (c & Hid & Hc). apply filter_In in Hc as [Hc Hcond].
    apply andb_true_iff in Hcond as [Ha Hb].
    rewrite not_in_iff, In_point_ids, Hid in Hb. split; [|exact Hb].
    apply located_at_iff in Ha. exists c. tauto.
  - intros ((c & Hc & Hx & Hy & Hz & Hid) & Hb). exists c.
    split; [exact Hid|]. apply filter_In. split; [exact Hc|].
    apply andb_true_iff. split.
    + now apply located_at_iff.
    + rewrite not_in_iff, In_point_ids, Hid. exact Hb.
Qed.

Lemma get_studies_by_coordinates_run coords x y z w :
  parse_coords coords = Some (x, y, z) ->
  get_studies_by_coordinates create_engine coords w =
  after_engine create_engine
    (query_outcome (SelectLocationStudies x y z)
       (jsonify [("error", JStr ("Coordinates " ++ fmt_point x y z
                                   ++ " not found."))] 404)
       (fun ids => jsonify [("coordinates", JInts [x; y; z]);
                            ("study_ids", JInts ids)] 200))
    w.
Proof.
  intros Hp. revert w.
  route_runs get_studies_by_coordinates (SelectLocationStudies x y z)
             ltac:(rewrite Hp).
Qed.

Lemma dissociate_locations_run a b x1 y1 z1 x2 y2 z2 w :
  parse_coords a = Some (x1, y1, z1) ->
  parse_coords b = Some (x2, y2, z2) ->
  dissociate_locations create_engine a b w =
  after_engine create_engine
    (query_outcome (SelectDissociateLocations x1 y1 z1 x2 y2 z2)
       (jsonify [("error", JStr ("No studies found for " ++ fmt_point x1 y1 z1
                                   ++ " without " ++ fmt_point x2 y2 z2
                                   ++ "."))] 404)
       (fun ids => jsonify [("coords_a", JInts [x1; y1; z1]);
                            ("coords_b", JInts [x2; y2; z2]);
                            ("study_ids", JInts ids)] 200))
    w.
Proof.
  intros Ha Hb. revert w.
  route_runs dissociate_locations
             (SelectDissociateLocations x1 y1 z1 x2 y2 z2)
             ltac:(rewrite Ha, Hb).
Qed.

(** X6: GET /locations/{coords}/studies on a segment that parses to
    (x, y, z), with the engine at hand and a store that answers: if some
    coordinate row lies at that point, the response is 200 with
    coordinates [x, y, z] (the parsed integers, not the text) and the
    non-empty list of exactly the distinct study ids at the point; if none
    does, the response is 404 with the message
    "Coordinates [x, y, z] not found." on the parsed integers. *)
Theorem locations_studies_found_or_not coords x y z w eng w1 :
  parse_coords coords = Some (x, y, z) ->
  engine_ready create_engine w eng w1 ->
  answers (store w) (SelectLocationStudies x y z) ->
  ((exists id, has_coordinate (store w) x y z id) ->
   exists ids,
     fst (get_studies_by_coordinates create_engine coords w)
     = Ok (jsonify [("coordinates", JInts [x; y; z]);
                    ("study_ids", JInts ids)] 200)
     /\ ids <> []
     /\ exactly_the_distinct ids (has_coordinate (store w) x y z))
  /\ ((forall id, ~ has_coordinate (store w) x y z id) ->
      fst (get_studies_by_coordinates create_engine coords w)
      = Ok (jsonify [("error",
                      JStr ("Coordinates " ++ fmt_point x y z
                                           ++ " not found."))]
                    404)).
Proof.
  intros Hp Hready Hans.
  destruct (engine_ready_inv Hready) as (_ & _ & Hst & _).
  rewrite (get_studies_by_coordinates_run _ _ Hp). unfold after_engine.
  unfold engine_ready in Hready. rewrite Hready.
  unfold query_outcome. cbn [fst]. rewrite Hst.
  rewrite (first_fault_answers Hans).
  pose proof (selected_location_studies (store w) x y z) as Hex.
  destruct (selected_ids (SelectLocationStudies x y z) (store w))
    as [|i ids] eqn:Hsel; split.
  - intros (id & Hid). destruct Hex as [_ Hin]. apply Hin in Hid.
    destruct Hid.
  - intros _. reflexivity.
  - intros _. exists (i :: ids). repeat split; try apply Hex. discriminate.
  - intros Hnone. exfalso. apply (Hnone i), Hex. now left.
Qed.


Lemma result_set_dissociate_locations a b x1 y1 z1 x2 y2 z2 w id :
  parse_coords a = Some (x1, y1, z1) ->
  parse_coords b = Some (x2, y2, z2) ->
  In id (result_set (fst (dissociate_locations create_engine a b w))) ->
  In id (selected_ids (SelectDissociateLocations x1 y1 z1 x2 y2 z2) (store w)).
Proof.
  intros Ha Hb. rewrite (dissociate_locations_run _ _ _ Ha Hb).
  unfold after_engine.
  destruct (get_engine create_engine w) as [[e|x] w1] eqn:Hg; [|intros []].
  destruct (engine_ready_inv Hg) as (_ & _ & Hst & _).
  unfold query_outcome. cbn [fst]. rewrite Hst.
  destruct (first_fault _ _); [intros []|].
  destruct (selected_ids _ _) as [|i ids] eqn:Hs; [intros []|].
  intros Hin. cbn in Hin. now rewrite ints_of_JInt in Hin.
Qed.

Lemma result_set_location_route coords x y z w id :
  parse_coords coords = Some (x, y, z) ->
  In id (result_set (fst (get_studies_by_coordinates create_engine coords w))) ->
  In id (selected_ids (SelectLocationStudies x y z) (store w)).
Proof.
  intros Hp. rewrite (get_studies_by_coordinates_run _ _ Hp).
  unfold after_engine.
  destruct (get_engine create_engine w) as [[e|ex] w1] eqn:Hg; [|intros []].
  destruct (engine_ready_inv Hg) as (_ & _ & Hst & _).
  unfold query_outcome. cbn [fst]. rewrite Hst.
  destruct (first_fault _ _); [intros []|].
  destruct (selected_ids _ _) as [|i ids] eqn:Hs; [intros []|].
  intros Hin. cbn in Hin. now rewrite ints_of_JInt in Hin.
Qed.

(** X8: GET /dissociate/locations/{a}/{b} on two segments that parse to
    the points p and q: with the engine at hand and a store that answers,
    its study_ids are exactly the distinct study ids with a coordinate at p
    and none at q; and whatever the health of the store, its result set is
    disjoint from that of GET /locations/{b}/studies on the same store. *)
Theorem dissociate_locations_set_difference a b x1 y1 z1 x2 y2 z2 w :
  parse_coords a = Some (x1, y1, z1) ->
  parse_coords b = Some (x2, y2, z2) ->
  (forall eng w1,
      engine_ready create_engine w eng w1 ->
      answers (store w) (SelectDissociateLocations x1 y1 z1 x2 y2 z2) ->
      exactly_the_distinct
        (result_set (fst (dissociate_locations create_engine a b w)))
        (fun id => has_coordinate (store w) x1 y1 z1 id
                   /\ ~ has_coordinate (store w) x2 y2 z2 id))
  /\ (forall w' id,
         store w' = store w ->
         In id (result_set (fst (dissociate_locations create_engine a b w))) ->
         ~ In id (result_set
                    (fst (get_studies_by_coordinates create_engine b w')))).
Proof.
  intros Ha Hb. split.
  - intros eng w1 Hready Hans.
    destruct (engine_ready_inv Hready) as (_ & _ & Hst & _).
    rewrite (dissociate_locations_run _ _ _ Ha Hb). unfold after_engine.
    unfold engine_ready in Hready. rewrite Hready.
    unfold query_outcome. cbn [fst]. rewrite Hst.
    rewrite (first_fault_answers Hans).
    pose proof (selected_dissociate_locations (store w) x1 y1 z1 x2 y2 z2)
      as Hex.
    destruct (selected_ids _ (store w)) as [|i ids]; [exact Hex|].
    cbn. rewrite ints_of_JInt. exact Hex.
  - intros w' id Hsame Hd Hl.
    apply (result_set_dissociate_locations _ _ _ _ Ha Hb) in Hd.
    apply (result_set_location_route _ _ _ Hb) in Hl. rewrite Hsame in Hl.
    apply selected_dissociate_locations in Hd as [_ Hnb].
    apply selected_location_studies in Hl. contradiction.
Qed.

(** X9: GET /dissociate/locations/{a}/{b} never returns 200 when the two
    segments parse to the same point, even if they are spelt differently
    ("1_2_3" and "+1_02_3"); with the engine at hand and a store that
    answers it returns 404. *)
Theorem dissociate_same_point_not_found a b x y z w :
  parse_coords a = Some (x, y, z) ->
  parse_coords b = Some (x, y, z) ->
  status_of (fst (dissociate_locations create_engine a b w)) <> Some 200
  /\ (forall eng w1,
         engine_ready create_engine w eng w1 ->
         answers (store w) (SelectDissociateLocations x y z x y z) ->
         status_of (fst (dissociate_locations create_engine a b w))
         = Some 404).
Proof.
  intros Ha Hb.
  assert (forall st, selected_ids (SelectDissociateLocations x y z x y z) st
                     = []) as Hnil.
  { intros st.
    pose proof (selected_dissociate_locations st x y z x y z) as [_ Hin].
    destruct (selected_ids _ st) as [|i ids]; [reflexivity|].
    destruct (proj1 (Hin i)) as [H1 H2]; [now left|contradiction]. }
  rewrite (dissociate_locations_run _ _ _ Ha Hb). unfold after_engine. split.
  - destruct (get_engine create_engine w) as [[e|ex] w1]; [|discriminate].
    unfold query_outcome. cbn [fst]. rewrite Hnil.
    destruct (first_fault _ _); discriminate.
  - intros eng w1 Hready Hans.
    destruct (engine_ready_inv Hready) as (_ & _ & Hst & _).
    unfold engine_ready in Hready. rewrite Hready.
    unfold query_outcome. cbn [fst]. rewrite Hst.
    now rewrite (first_fault_answers Hans), Hnil.
Qed.

(** ** How the term routes fit together *)

Lemma result_set_term_exact t w eng w1 :
  engine_ready create_engine w eng w1 ->
  answers (store w) (SelectTermStudies t) ->
  result_set (fst (get_studies_by_term create_engine t w))
  = selected_ids (SelectTermStudies t) (store w).
Proof.
  intros Hready Hans.
  destruct (engine_ready_inv Hready) as (_ & _ & Hst & _).
  rewrite get_studies_by_term_run. unfold after_engine.
  unfold engine_ready in Hready. rewrite Hready.
  unfold query_outcome. cbn [fst]. rewrite Hst, (first_fault_answers Hans).
  destruct (selected_ids _ (store w)) as [|i ids]; [reflexivity|].
  cbn. now rewrite ints_of_JInt.
Qed.

Lemma result_set_dissociate_exact a b w eng w1 :
  engine_ready create_engine w eng w1 ->
  answers (store w) (SelectDissociateTerms a b) ->
  result_set (fst (dissociate_terms create_engine a b w))
  = selected_ids (SelectDissociateTerms a b) (store w).
Proof.
  intros Hready Hans.
  destruct (engine_ready_inv Hready) as (_ & _ & Hst & _).
  rewrite dissociate_terms_run. unfold after_engine.
  unfold engine_ready in Hready. rewrite Hready.
  unfold query_outcome. cbn [fst]. rewrite Hst, (first_fault_answers Hans).
  destruct (selected_ids _ (store w)) as [|i ids]; [reflexivity|].
  cbn. now rewrite ints_of_JInt.
Qed.

Lemma has_annotation_dec st t id :
  has_annotation st t id \/ ~ has_annotation st t id.
Proof.
  rewrite <- In_term_ids.
  destruct (in_dec Z.eq_dec id
              (map at_study_id
                   (filter (annotated_with t) (annotations_terms st))));
    auto.
Qed.

(** X10: the term routes partition consistently.  With the engine at hand
    and a store that answers the three queries, the studies of
    /dissociate/terms/{a}/{b} are among those of /terms/{a}/studies, and
    every study of /terms/{a}/studies is either in
    /dissociate/terms/{a}/{b} or in /terms/{b}/studies; and in every world
    the result sets of /dissociate/terms/{a}/{b} and
    /dissociate/terms/{b}/{a} are disjoint. *)
Theorem term_routes_partition a b w :
  (forall eng w1,
      engine_ready create_engine w eng w1 ->
      answers (store w) (SelectTermStudies a) ->
      answers (store w) (SelectTermStudies b) ->
      answers (store w) (SelectDissociateTerms a b) ->
      forall id,
        In id (result_set (fst (get_studies_by_term create_engine a w)))
        <-> (In id (result_set (fst (dissociate_terms create_engine a b w)))
             \/ (In id (result_set
                          (fst (get_studies_by_term create_engine a w)))
                 /\ In id (result_set
                             (fst (get_studies_by_term create_engine b w))))))
  /\ (forall w' id,
         store w' = store w ->
         In id (result_set (fst (dissociate_terms create_engine a b w))) ->
         ~ In id (result_set (fst (dissociate_terms create_engine b a w')))).
Proof.
  split.
  - intros eng w1 Hready Ha Hb Hab id.
    rewrite (result_set_term_exact Hready Ha),
      (result_set_term_exact Hready Hb),
      (result_set_dissociate_exact Hready Hab).
    rewrite (proj2 (selected_term_studies (store w) a) id),
      (proj2 (selected_term_studies (store w) b) id),
      (proj2 (selected_dissociate_terms (store w) a b) id).
    destruct (has_annotation_dec (store w) b id); tauto.
  - intros w' id Hsame Hab Hba.
    apply result_set_dissociate_terms in Hab as (w1 & H1 & Hab).
    apply result_set_dissociate_terms in Hba as (w2 & H2 & Hba).
    rewrite H1 in Hab. rewrite H2, Hsame in Hba.
    apply selected_dissociate_terms in Hab as [Ha Hnb].
    apply selected_dissociate_terms in Hba as [Hb _]. contradiction.
Qed.



(** ** The diagnostics handler under any failure *)


(** X13: when the connection cannot be opened, /test_db sends nothing
    after the failed [BEGIN], leaves the store as it was, and answers 500
    with exactly ok:false, dialect and error. *)
Theorem test_db_unreachable_store w eng w1 msg :
  engine_ready create_engine w eng w1 ->
  fault (store w) OpBegin = Some msg ->
  test_db create_engine dialect_name w
  = (Ok (jsonify [("ok", JBool false); ("dialect", JStr (dialect_name eng));
                  ("error", JStr msg)] 500),
     logged [OpBegin] w1).
Proof.
  intros Hready Hbegin. destruct (engine_ready_inv Hready) as (_ & _ & Hst & _).
  rewrite test_db_run. unfold engine_ready in Hready. rewrite Hready.
  unfold test_db_response, test_db_ops, test_db_store, logged.
  rewrite Hst, Hbegin. cbn. now rewrite <- Hst.
Qed.

(** X14: a failed commit turns a complete report into a failure: when the
    transaction opens and every query succeeds but the commit fails with
    message m, /test_db answers 500 with ok:false, the dialect, the
    version, the three counts and the three samples, and error m last. *)
Theorem test_db_commit_failure w eng w1 msg :
  engine_ready create_engine w eng w1 ->
  transaction_opens (store w) ->
  (forall k s, In (k, s) unguarded -> fault (store w) (OpExecute s) = None) ->
  fault (store w) OpCommit = Some msg ->
  fst (test_db create_engine dialect_name w)
  = Ok (jsonify ([("ok", JBool false); ("dialect", JStr (dialect_name eng))]
                   ++ version_and_counts (store w)
                   ++ run_guarded (store w) guarded
                   ++ [("error", JStr msg)])%list 500).
Proof.
  intros Hready [Hbegin Hset] Hok Hcommit.
  destruct (engine_ready_inv Hready) as (_ & _ & Hst & _).
  rewrite test_db_run. unfold engine_ready in Hready. rewrite Hready.
  cbn [fst]. rewrite Hst. unfold test_db_response.
  rewrite Hbegin, Hset, (run_unguarded_all_ok _ Hok), Hcommit.
  now rewrite <- !app_assoc.
Qed.

(** ** The URL handed to the engine *)

(** X15: the engine constructor never sees the legacy scheme: whenever
    [get_engine] makes the engine it calls the constructor, with
    pool_pre_ping on, on a URL that does not start with "postgres://";
    normalizing an already normalized URL changes nothing. *)
Theorem constructor_never_sees_legacy_scheme :
  (forall url, PyStr.startswith "postgres://" (normalized_url url) = false)
  /\ (forall url, normalized_url (normalized_url url) = normalized_url url)
  /\ (forall w url,
         DB_URL w = Some url -> url <> "" -> _engine w = None ->
         get_engine create_engine w
         = created (create_engine (normalized_url url) true) w).
Proof.
  assert (forall url,
             PyStr.startswith "postgres://" (normalized_url url) = false)
    as Hnever.
  { intros url. unfold normalized_url.
    destruct (PyStr.startswith "postgres://" url) eqn:Hp; [reflexivity|exact Hp]. }
  split; [exact Hnever|]. split.
  - intros url. unfold normalized_url at 1. now rewrite Hnever.
  - intros w url Hurl Hne Hnone. rewrite get_engine_unfold, Hnone, Hurl.
    destruct url as [|c url]; [contradiction|].
    unfold normalized_url. cbn [String.length].
    destruct (create_engine _ true); reflexivity.
Qed.

(** ** The shape of every answer of a query route *)

Lemma NoDup_selected_ids s st : NoDup (selected_ids s st).
Proof. destruct s; cbn; first [apply NoDup_distinct | constructor]. Qed.

Lemma query_outcome_shape s not_found found w resp :
  error_body not_found -> status not_found = 404 ->
  (forall ids, ids <> [] -> NoDup ids ->
               studies_body (found ids) /\ status (found ids) = 200) ->
  fst (query_outcome s not_found found w) = Ok resp ->
  (status resp = 200 /\ studies_body resp)
  \/ ((status resp = 404 \/ status resp = 500) /\ error_body resp).
Proof.
  intros Hnf H404 Hfound. unfold query_outcome. cbn [fst].
  destruct (first_fault (store w) s) as [m|].
  { intros H; injection H as <-. right. split; [now right|].
    eexists; reflexivity. }
  pose proof (NoDup_selected_ids s (store w)) as Hnd.
  destruct (selected_ids s (store w)) as [|i ids].
  - intros H; injection H as <-. right. split; [now left|exact Hnf].
  - intros H; injection H as <-. left.
    destruct (Hfound (i :: ids)) as [Hb Hs]; [discriminate|exact Hnd|]. auto.
Qed.

(** X17: the answers of the four query routes have one of two shapes,
    whatever the input and the state of the store: status 200 with a body
    that has no error entry and a study_ids list that is non-empty and
    free of duplicates, or status 400, 404 or 500 with a body that is
    exactly {"error": message}.  An empty study_ids list is never
    returned. *)
Theorem query_routes_answer_shape (req : Request) w resp :
  is_query_route req = true ->
  fst (dispatch create_engine dialect_name req w) = Ok resp ->
  (status resp = 200 /\ studies_body resp)
  \/ ((status resp = 400 \/ status resp = 404 \/ status resp = 500)
      /\ error_body resp).
Proof.
  intros Hroute Hresp.
  assert (forall s nf f,
             error_body nf -> status nf = 404 ->
             (forall ids, ids <> [] -> NoDup ids ->
                          studies_body (f ids) /\ status (f ids) = 200) ->
             fst (after_engine create_engine (query_outcome s nf f) w)
             = Ok resp ->
             (status resp = 200 /\ studies_body resp)
             \/ ((status resp = 400 \/ status resp = 404 \/ status resp = 500)
                 /\ error_body resp)) as Hshape.
  { intros s nf f Hnf H404 Hf. unfold after_engine.
    destruct (get_engine create_engine w) as [[e|x] w1]; [|discriminate].
    intros H.
    destruct (query_outcome_shape Hnf H404 Hf H) as [?|[[?|?] ?]]; auto. }
  assert (Ok invalid_coordinates = Ok resp ->
          (status resp = 200 /\ studies_body resp)
          \/ ((status resp = 400 \/ status resp = 404 \/ status resp = 500)
              /\ error_body resp)) as Hinvalid.
  { intros H; injection H as <-. right. split; [now left|].
    eexists; reflexivity. }
  destruct req; try discriminate Hroute; cbn [dispatch] in Hresp.
  - rewrite get_studies_by_term_run in Hresp. revert Hresp. apply Hshape.
    + eexists; reflexivity.
    + reflexivity.
    + intros ids Hne Hnd. split; [|reflexivity].
      exists [("term", JStr term); ("study_ids", JInts ids)], ids.
      repeat split; assumption.
  - destruct (parse_coords coords) as [[[x y] z]|] eqn:Hp.
    + rewrite (get_studies_by_coordinates_run _ _ Hp) in Hresp.
      revert Hresp. apply Hshape.
      * eexists; reflexivity.
      * reflexivity.
      * intros ids Hne Hnd. split; [|reflexivity].
        exists [("coordinates", JInts [x; y; z]); ("study_ids", JInts ids)],
          ids.
        repeat split; assumption.
    + unfold get_studies_by_coordinates in Hresp. rewrite Hp in Hresp.
      now apply Hinvalid.
  - rewrite dissociate_terms_run in Hresp. revert Hresp. apply Hshape.
    + eexists; reflexivity.
    + reflexivity.
    + intros ids Hne Hnd. split; [|reflexivity].
      exists [("term_a", JStr term_a); ("term_b", JStr term_b);
              ("study_ids", JInts ids)], ids.
      repeat split; assumption.
  - destruct (parse_coords coords_a) as [[[x1 y1] z1]|] eqn:Ha;
      [destruct (parse_coords coords_b) as [[[x2 y2] z2]|] eqn:Hb|].
    + rewrite (dissociate_locations_run _ _ _ Ha Hb) in Hresp.
      revert Hresp. apply Hshape.
      * eexists; reflexivity.
      * reflexivity.
      * intros ids Hne Hnd. split; [|reflexivity].
        exists [("coords_a", JInts [x1; y1; z1]);
                ("coords_b", JInts [x2; y2; z2]); ("study_ids", JInts ids)],
          ids.
        repeat split; assumption.
    + unfold dissociate_locations in Hresp. rewrite Ha, Hb in Hresp.
      now apply Hinvalid.
    + unfold dissociate_locations in Hresp. rewrite Ha in Hresp.
      now apply Hinvalid.
Qed.

End Proofs.

(** ** The properties on a concrete deployment *)

Lemma demo_engine_ready (health : Op -> option string) :
  engine_ready Demo.create_engine (Demo.world Demo.url health) Demo.engine
               (Demo.started (Demo.world Demo.url health)).
Proof. reflexivity. Qed.

Lemma demo_answers (s : Statement) : answers (store Demo.up) s.
Proof. repeat split. Qed.

Lemma dissociate_terms_set_difference_witness :
  exactly_the_distinct
    (result_set (fst (dissociate_terms Demo.create_engine "pain" "fear"
                                       Demo.up)))
    (fun id => has_annotation (store Demo.up) "pain" id
               /\ ~ has_annotation (store Demo.up) "fear" id)
  /\ ~ In 3 (result_set (fst (get_studies_by_term Demo.create_engine "fear"
                                                  Demo.up))).
Proof.
  split.
  - apply (proj1 (dissociate_terms_set_difference Demo.create_engine
                    Demo.up "pain" "fear") Demo.engine (Demo.started Demo.up)).
    + apply demo_engine_ready.
    + apply demo_answers.
  - apply (proj2 (dissociate_terms_set_difference Demo.create_engine
                    Demo.up "pain" "fear") Demo.up 3).
    + reflexivity.
    + vm_compute. auto.
Defined.

Lemma terms_studies_found_witness :
  exists ids,
    fst (get_studies_by_term Demo.create_engine "pain" Demo.up)
    = Ok (jsonify [("term", JStr "pain"); ("study_ids", JInts ids)] 200)
    /\ ids <> []
    /\ exactly_the_distinct ids (has_annotation (store Demo.up) "pain").
Proof.
  apply (@terms_studies_found _ Demo.create_engine Demo.up Demo.engine
           (Demo.started Demo.up) "pain").
  - apply demo_engine_ready.
  - apply demo_answers.
  - exists 1, (mkAnnotation 1 (JInt 10) "pain" (JInt 3)).
    repeat split. vm_compute. auto.
Defined.

Lemma test_db_partial_failure_policy_witness :
  fst (test_db Demo.create_engine Demo.dialect_name Demo.degraded)
  = Ok (jsonify ([("ok", JBool true); ("dialect", JStr "postgresql")]
                   ++ version_and_counts (store Demo.degraded)
                   ++ run_guarded (store Demo.degraded) guarded)%list 200)
  /\ dict_get "metadata_sample" (run_guarded (store Demo.degraded) guarded)
     = Some (JList [])
  /\ exists n msg,
      (n < 4)%nat
      /\ (exists q, nth_error unguarded n = Some q
                    /\ fault (store Demo.broken) (OpExecute (snd q)) = Some msg)
      /\ fst (test_db Demo.create_engine Demo.dialect_name Demo.broken)
         = Ok (jsonify ([("ok", JBool false); ("dialect", JStr "postgresql")]
                          ++ firstn n (version_and_counts (store Demo.broken))
                          ++ [("error", JStr msg)])%list 500).
Proof.
  split; [|split].
  - apply (proj1 (@test_db_partial_failure_policy _ Demo.create_engine
                    Demo.dialect_name Demo.degraded Demo.engine
                    (Demo.started Demo.degraded)
                    (demo_engine_ready Demo.sample_down)
                    (conj eq_refl eq_refl))); [|reflexivity].
    intros k s Hin. cbn in Hin.
    destruct Hin as [E|[E|[E|[E|[]]]]]; injection E as _ <-; reflexivity.
  - reflexivity.
  - apply (proj2 (@test_db_partial_failure_policy _ Demo.create_engine
                    Demo.dialect_name Demo.broken Demo.engine
                    (Demo.started Demo.broken)
                    (demo_engine_ready Demo.metadata_down)
                    (conj eq_refl eq_refl))
             "metadata_count" CountMetadata
             "relation ns.metadata does not exist").
    + cbn. auto.
    + reflexivity.
Defined.

(** The 500 body of [test_db] is not always made of the three keys ok,
    dialect and error: when the metadata count fails, the version and the
    first count are in it too. *)
Lemma test_db_error_body_keeps_progress :
  fault (store Demo.broken) (OpExecute CountMetadata)
  = Some "relation ns.metadata does not exist"
  /\ status_of (fst (test_db Demo.create_engine Demo.dialect_name Demo.broken))
     = Some 500
  /\ body_keys (fst (test_db Demo.create_engine Demo.dialect_name Demo.broken))
     = ["ok"; "dialect"; "version"; "coordinates_count"; "error"]
  /\ body_keys (fst (test_db Demo.create_engine Demo.dialect_name Demo.broken))
     <> ["ok"; "dialect"; "error"].
Proof. repeat split. discriminate. Qed.


Lemma store_errors_become_500_witness :
  (exists resp,
      fst (dispatch Demo.create_engine Demo.dialect_name
                    (GetLocationStudies "1_2_3") Demo.down) = Ok resp)
  /\ (forall m,
         first_fault (store Demo.down) (SelectLocationStudies 1 2 3) = Some m ->
         dispatch Demo.create_engine Demo.dialect_name
                  (GetLocationStudies "1_2_3") Demo.down
         = (Ok (jsonify [("error", JStr m)] 500),
            logged (attempted (store Demo.down) (SelectLocationStudies 1 2 3))
                   (Demo.started Demo.down)))
  /\ NoDup (attempted (store Demo.down) (SelectLocationStudies 1 2 3)).
Proof.
  apply (@store_errors_become_500 _ Demo.create_engine Demo.dialect_name
           (GetLocationStudies "1_2_3") (SelectLocationStudies 1 2 3)
           Demo.down Demo.engine (Demo.started Demo.down)).
  - reflexivity.
  - apply demo_engine_ready.
Defined.

Lemma missing_db_url_is_fatal_witness :
  fst (serve Demo.create_engine Demo.dialect_name
             [GetHealth; GetTermStudies "pain"; GetLocationStudies "a_b_c";
              GetTestDb]
             (Demo.world None Demo.healthy))
  = [Ok (mkResponse 200 (Html "<p>Server working!</p>"));
     Raise missing_db_url;
     Ok invalid_coordinates;
     Raise missing_db_url]
  /\ Forall2 (fun req out =>
                needs_store req = true -> out = Raise missing_db_url)
             [GetTermStudies "pain"; GetTestDb]
             (fst (serve Demo.create_engine Demo.dialect_name
                         [GetTermStudies "pain"; GetTestDb]
                         (Demo.world None Demo.healthy))).
Proof.
  split; [reflexivity|].
  apply (proj2 (missing_db_url_is_fatal Demo.create_engine Demo.dialect_name
                  (Demo.store_with Demo.healthy) []
                  [GetTermStudies "pain"; GetTestDb])).
Defined.

Lemma legacy_scheme_normalized_witness :
  get_engine Demo.create_engine Demo.up
  = created (Demo.create_engine "postgresql://user@host/neuro" true) Demo.up
  /\ get_engine Demo.create_engine
                (Demo.world (Some "sqlite:///neuro.db") Demo.healthy)
     = created (Demo.create_engine "sqlite:///neuro.db" true)
               (Demo.world (Some "sqlite:///neuro.db") Demo.healthy).
Proof.
  destruct (legacy_scheme_normalized Demo.create_engine) as [Hlegacy Hother].
  split.
  - apply (Hlegacy "user@host/neuro" Demo.up); reflexivity.
  - apply (Hother "sqlite:///neuro.db"); try reflexivity. discriminate.
Defined.

(** An empty DB_URL does not start with the legacy prefix, yet it is not
    passed to the constructor: [get_engine] raises. *)
Lemma empty_db_url_not_passed_through :
  PyStr.startswith "postgres://" "" = false
  /\ get_engine Demo.create_engine (Demo.world (Some "") Demo.healthy)
     = (Raise missing_db_url, Demo.world (Some "") Demo.healthy)
  /\ get_engine Demo.create_engine (Demo.world (Some "") Demo.healthy)
     <> created (Demo.create_engine "" true)
                (Demo.world (Some "") Demo.healthy).
Proof. repeat split. discriminate. Qed.

Lemma query_routes_idempotent_read_only_witness :
  fst (dispatch Demo.create_engine Demo.dialect_name
                (GetDissociateLocations "1_2_3" "-4_0_8")
                (snd (dispatch Demo.create_engine Demo.dialect_name
                               (GetDissociateLocations "1_2_3" "-4_0_8")
                               Demo.up)))
  = fst (dispatch Demo.create_engine Demo.dialect_name
                  (GetDissociateLocations "1_2_3" "-4_0_8") Demo.up)
  /\ store (snd (dispatch Demo.create_engine Demo.dialect_name
                          (GetDissociateLocations "1_2_3" "-4_0_8") Demo.up))
     = store Demo.up.
Proof.
  destruct (@query_routes_idempotent_read_only _ Demo.create_engine
              Demo.dialect_name (GetDissociateLocations "1_2_3" "-4_0_8")
              Demo.up eq_refl) as (Hsame & Hstore & _).
  split; [exact Hsame|exact Hstore].
Defined.

Lemma terms_studies_not_found_witness :
  exists m,
    fst (get_studies_by_term Demo.create_engine "joy" Demo.up)
    = Ok (jsonify [("error", JStr m)] 404)
    /\ m = "Term 'joy' not found."
    /\ PyStr.contains "joy" m = true.
Proof.
  apply (@terms_studies_not_found _ Demo.create_engine Demo.up Demo.engine
           (Demo.started Demo.up) "joy").
  - apply demo_engine_ready.
  - apply demo_answers.
  - intros id (a & Hin & Hterm & _). cbn in Hin.
    repeat (destruct Hin as [<-|Hin]; [discriminate Hterm|]). exact Hin.
Defined.

Lemma dissociate_same_term_not_found_witness :
  fst (dissociate_terms Demo.create_engine "pain" "pain" Demo.up)
  = Ok (jsonify [("error",
                  JStr "No studies found for 'pain' without 'pain'.")] 404)
  /\ status_of (fst (dissociate_terms Demo.create_engine "pain" "pain"
                                      Demo.down)) <> Some 200.
Proof.
  split.
  - apply (proj1 (dissociate_same_term_not_found Demo.create_engine Demo.up
                    "pain") Demo.engine (Demo.started Demo.up)).
    + apply demo_engine_ready.
    + apply demo_answers.
  - apply (proj2 (dissociate_same_term_not_found Demo.create_engine
                    Demo.down "pain")).
Defined.

(** ** The further properties on the concrete deployment *)


Lemma engine_failure_is_not_memoised_witness :
  Forall2 (fun req out =>
             needs_store req = true ->
             out = Raise (mkExn ValueError
                            "Could not parse SQLAlchemy URL from given URL string"))
          [GetTermStudies "pain"; GetHealth; GetTestDb]
          (fst (serve DemoMore.picky_create_engine Demo.dialect_name
                      [GetTermStudies "pain"; GetHealth; GetTestDb]
                      DemoMore.misconfigured))
  /\ _engine (snd (serve DemoMore.picky_create_engine Demo.dialect_name
                         [GetTermStudies "pain"; GetHealth; GetTestDb]
                         DemoMore.misconfigured)) = None.
Proof.
  apply (@engine_failure_is_not_memoised _ DemoMore.picky_create_engine
           Demo.dialect_name _ DemoMore.misconfigured "neuro.db").
  - reflexivity.
  - discriminate.
  - reflexivity.
  - reflexivity.
Defined.

Lemma locations_studies_found_or_not_witness :
  (exists ids,
      fst (get_studies_by_coordinates Demo.create_engine " -4_0_+8" Demo.up)
      = Ok (jsonify [("coordinates", JInts [-4; 0; 8]);
                     ("study_ids", JInts ids)] 200)
      /\ ids <> []
      /\ exactly_the_distinct ids (has_coordinate (store Demo.up) (-4) 0 8))
  /\ fst (get_studies_by_coordinates Demo.create_engine "7_7_7" Demo.up)
     = Ok (jsonify [("error", JStr "Coordinates [7, 7, 7] not found.")] 404).
Proof.
  split.
  - apply (proj1 (@locations_studies_found_or_not _ Demo.create_engine
                    " -4_0_+8" (-4) 0 8 Demo.up Demo.engine
                    (Demo.started Demo.up) eq_refl
                    (demo_engine_ready Demo.healthy) (demo_answers _))).
    exists 2, (mkCoordinate 2 (-4) 0 8). repeat split. vm_compute. auto.
  - apply (proj2 (@locations_studies_found_or_not _ Demo.create_engine
                    "7_7_7" 7 7 7 Demo.up Demo.engine
                    (Demo.started Demo.up) eq_refl
                    (demo_engine_ready Demo.healthy) (demo_answers _))).
    intros id (c & Hin & Hx & _). cbn in Hin.
    repeat (destruct Hin as [<-|Hin]; [discriminate Hx|]). exact Hin.
Defined.


Lemma dissociate_locations_set_difference_witness :
  exactly_the_distinct
    (result_set (fst (dissociate_locations Demo.create_engine
                        "1_2_3" "-4_0_8" Demo.up)))
    (fun id => has_coordinate (store Demo.up) 1 2 3 id
               /\ ~ has_coordinate (store Demo.up) (-4) 0 8 id)
  /\ ~ In 1 (result_set (fst (get_studies_by_coordinates Demo.create_engine
                                "-4_0_8" Demo.up))).
Proof.
  destruct (@dissociate_locations_set_difference _ Demo.create_engine
              "1_2_3" "-4_0_8" 1 2 3 (-4) 0 8 Demo.up eq_refl eq_refl)
    as [Hexact Hdisjoint].
  split.
  - apply (Hexact Demo.engine (Demo.started Demo.up)).
    + apply demo_engine_ready.
    + apply demo_answers.
  - apply (Hdisjoint Demo.up 1); [reflexivity|]. vm_compute. auto.
Defined.

Lemma dissociate_same_point_not_found_witness :
  status_of (fst (dissociate_locations Demo.create_engine "1_2_3" "+1_02_3"
                                       Demo.up)) <> Some 200
  /\ status_of (fst (dissociate_locations Demo.create_engine "1_2_3" "+1_02_3"
                                          Demo.up)) = Some 404.
Proof.
  destruct (@dissociate_same_point_not_found _ Demo.create_engine
              "1_2_3" "+1_02_3" 1 2 3 Demo.up eq_refl eq_refl)
    as [Hnever Hnot_found].
  split; [exact Hnever|].
  apply (Hnot_found Demo.engine (Demo.started Demo.up)).
  - apply demo_engine_ready.
  - apply demo_answers.
Defined.

Lemma term_routes_partition_witness :
  (In 1 (result_set (fst (get_studies_by_term Demo.create_engine "pain"
                                              Demo.up)))
   <-> (In 1 (result_set (fst (dissociate_terms Demo.create_engine
                                                "pain" "fear" Demo.up)))
        \/ (In 1 (result_set (fst (get_studies_by_term Demo.create_engine
                                                       "pain" Demo.up)))
            /\ In 1 (result_set (fst (get_studies_by_term Demo.create_engine
                                                          "fear" Demo.up))))))
  /\ ~ In 3 (result_set (fst (dissociate_terms Demo.create_engine
                                               "fear" "pain" Demo.up))).
Proof.
  destruct (term_routes_partition Demo.create_engine Demo.dialect_name
              "pain" "fear" Demo.up) as [Hpart Hdisjoint].
  split.
  - apply (Hpart Demo.engine (Demo.started Demo.up));
      first [apply demo_engine_ready | apply demo_answers].
  - apply (Hdisjoint Demo.up 3); [reflexivity|]. vm_compute. auto.
Defined.



Lemma test_db_unreachable_store_witness :
  test_db Demo.create_engine Demo.dialect_name Demo.down
  = (Ok (jsonify [("ok", JBool false); ("dialect", JStr "postgresql");
                  ("error", JStr "connection refused")] 500),
     logged [OpBegin] (Demo.started Demo.down)).
Proof.
  apply (@test_db_unreachable_store _ Demo.create_engine Demo.dialect_name
           Demo.down Demo.engine (Demo.started Demo.down)
           "connection refused").
  - apply demo_engine_ready.
  - reflexivity.
Defined.

Lemma test_db_commit_failure_witness :
  fst (test_db Demo.create_engine Demo.dialect_name DemoMore.uncommitted)
  = Ok (jsonify ([("ok", JBool false); ("dialect", JStr "postgresql")]
                   ++ version_and_counts (store DemoMore.uncommitted)
                   ++ run_guarded (store DemoMore.uncommitted) guarded
                   ++ [("error",
                        JStr "server closed the connection unexpectedly")])%list
                500).
Proof.
  apply (@test_db_commit_failure _ Demo.create_engine Demo.dialect_name
           DemoMore.uncommitted Demo.engine
           (Demo.started DemoMore.uncommitted)
           "server closed the connection unexpectedly").
  - apply demo_engine_ready.
  - split; reflexivity.
  - intros k s Hin. cbn in Hin.
    destruct Hin as [E|[E|[E|[E|[]]]]]; injection E as _ <-; reflexivity.
  - reflexivity.
Defined.

Lemma constructor_never_sees_legacy_scheme_witness :
  get_engine Demo.create_engine Demo.up
  = created (Demo.create_engine (normalized_url "postgres://user@host/neuro")
                                true) Demo.up
  /\ PyStr.startswith "postgres://"
                      (normalized_url "postgres://user@host/neuro") = false.
Proof.
  destruct (constructor_never_sees_legacy_scheme Demo.create_engine)
    as (Hnever & _ & Hmade).
  split.
  - apply (Hmade Demo.up "postgres://user@host/neuro");
      [reflexivity|discriminate|reflexivity].
  - apply Hnever.
Defined.

Lemma query_routes_answer_shape_witness :
  (status (jsonify [("error", JStr "Term 'joy' not found.")] 404) = 200
   /\ studies_body (jsonify [("error", JStr "Term 'joy' not found.")] 404))
  \/ ((status (jsonify [("error", JStr "Term 'joy' not found.")] 404) = 400
       \/ status (jsonify [("error", JStr "Term 'joy' not found.")] 404) = 404
       \/ status (jsonify [("error", JStr "Term 'joy' not found.")] 404) = 500)
      /\ error_body (jsonify [("error", JStr "Term 'joy' not found.")] 404)).
Proof.
  apply (@query_routes_answer_shape _ Demo.create_engine Demo.dialect_name
           (GetTermStudies "joy") Demo.up).
  - reflexivity.
  - reflexivity.
Defined.
